(** * simple_uart: a shallow embedding of [libraries/serial_ports/simple_uart.c]

    The C file keeps two global arrays ([initialized], [fd]) and talks to the
    kernel through [open], [close], [tcsetattr], [tcflush], [write], [select]
    and [read].  Here the globals and the kernel live in one [world] record
    which every function threads through a small state monad.  What the
    kernel answers is not decided by the program: it is read from an
    [environment] carried by the world, so every theorem below holds for all
    possible behaviours of the devices. *)

From Stdlib Require Import ZArith List String Bool Lia.
Import ListNotations.
Local Open Scope string_scope.
Local Open Scope list_scope.
Local Open Scope Z_scope.

(** ** Machine integers and system constants *)

Definition MIN_BUS : Z := 0.
Definition MAX_BUS : Z := 5.

Definition INT_MIN : Z := - 2 ^ 31.
Definition INT_MAX : Z := 2 ^ 31 - 1.

(** The result of an [int] operation, reduced to 32 bits two's complement. *)
Definition wrap_int (z : Z) : Z := (z + 2 ^ 31) mod 2 ^ 32 - 2 ^ 31.

(** Values of the Linux headers the file is compiled against. *)
Definition EINTR : Z := 4.
Definition EINVAL : Z := 22.
Definition O_RDWR : Z := 2.
Definition O_NOCTTY : Z := 256.
Definition CS8 : Z := 48.
Definition CREAD : Z := 128.
Definition CLOCAL : Z := 2048.
Definition TCSAFLUSH : Z := 2.
Definition TCIFLUSH : Z := 0.

(** [speed_t]: the symbolic rates of termios.h ([B0] is what [memset] leaves). *)
Inductive speed_t : Type :=
| B0 | B50 | B75 | B110 | B134 | B150 | B200 | B300 | B600 | B1200 | B1800
| B2400 | B4800 | B9600 | B19200 | B38400 | B57600 | B115200 | B230400.

Record termios : Type := mk_termios {
  c_iflag : Z;
  c_oflag : Z;
  c_cflag : Z;
  c_lflag : Z;
  c_cc_VTIME : Z;
  c_cc_VMIN : Z;
  c_ispeed : speed_t;
  c_ospeed : speed_t
}.

Record timeval : Type := mk_timeval {
  tv_sec : Z;
  tv_usec : Z
}.

(** Modelled from the spec: the flow state of robotics_cape.h, which is not
    part of the sources at hand.  The spec describes it as a process-wide
    running/exiting indicator read through [get_state()]. *)
Inductive state_t : Type := RUNNING | EXITING.

Definition state_eqb (a b : state_t) : bool :=
  match a, b with
  | RUNNING, RUNNING | EXITING, EXITING => true
  | _, _ => false
  end.

(** ** The kernel and the devices *)

(** What happens while [select] waits on a descriptor. *)
Inductive wait_event : Type :=
| DataArrives (delay : Z)              (* readable after [delay] microseconds *)
| WaitFails (delay : Z) (code : Z).    (* fails after [delay] with errno [code] *)

(** The answer of the outside world to one system call. *)
Record reply : Type := mk_reply {
  result : Z;                 (* open: descriptor or negative; tcsetattr, tcflush,
                                 write: count or negative; read: negative = failure *)
  wait : wait_event;          (* select *)
  incoming : list Byte.byte   (* read: the bytes waiting in the receive queue *)
}.

(** The environment is indexed by the number of system calls made so far. *)
Record environment : Type := mk_environment {
  flow : nat -> state_t;      (* the flow state a [get_state()] sees at that time *)
  answer : nat -> reply
}.

(** One entry of the log of system calls, with arguments and results. *)
Inductive syscall : Type :=
| Sys_open (path : string) (flags : Z) (ret : Z)
| Sys_close (d : Z)
| Sys_tcsetattr (d : Z) (actions : Z) (config : termios) (ret : Z)
| Sys_tcflush (d : Z) (queue : Z) (ret : Z)
| Sys_write (d : Z) (data : list Byte.byte) (ret : Z)
| Sys_select (nfds : Z) (d : Z) (tv_in : timeval)
             (ret : Z) (tv_out : timeval) (elapsed : Z)
| Sys_read (d : Z) (count : Z) (ret : Z) (data : list Byte.byte).

Record world : Type := mk_world {
  initialized : list Z;               (* int initialized[MAX_BUS-MIN_BUS+1] *)
  fd : list Z;                        (* int fd[6] *)
  errno : Z;
  open_fds : list Z;                  (* descriptors got from open, not closed since *)
  trace : list syscall;               (* system calls so far, oldest first *)
  console : list (string * list Z);   (* printf: format and arguments *)
  env : environment
}.

(** ** The state monad *)

Definition M (A : Type) : Type := world -> A * world.

Definition ret {A : Type} (a : A) : M A := fun w => (a, w).

Definition bind {A B : Type} (c : M A) (k : A -> M B) : M B :=
  fun w => let (a, w') := c w in k a w'.

Notation "x <- c1 ;; c2" := (bind c1 (fun x => c2))
  (at level 61, c1 at next level, right associativity).
Notation "c1 ;; c2" := (bind c1 (fun _ => c2))
  (at level 61, right associativity).

(** C arrays of [int], read and written by index. *)
Definition array_get (a : list Z) (i : Z) : Z := nth (Z.to_nat i) a 0.

Fixpoint list_set (a : list Z) (n : nat) (v : Z) : list Z :=
  match a, n with
  | [], _ => []
  | _ :: t, O => v :: t
  | h :: t, S n' => h :: list_set t n' v
  end.

Definition array_set (a : list Z) (i : Z) (v : Z) : list Z :=
  list_set a (Z.to_nat i) v.

Definition paths : list string :=
  [ "/dev/ttyO0"; "/dev/ttyO1"; "/dev/ttyO2";
    "/dev/ttyO3"; "/dev/ttyO4"; "/dev/ttyO5" ].

Definition get_initialized (bus : Z) : M Z :=
  fun w => (array_get (initialized w) bus, w).

Definition set_initialized (bus v : Z) : M unit :=
  fun w => (tt, mk_world (array_set (initialized w) bus v) (fd w) (errno w)
                         (open_fds w) (trace w) (console w) (env w)).

Definition get_fd (bus : Z) : M Z :=
  fun w => (array_get (fd w) bus, w).

Definition set_fd (bus v : Z) : M unit :=
  fun w => (tt, mk_world (initialized w) (array_set (fd w) bus v) (errno w)
                         (open_fds w) (trace w) (console w) (env w)).

Definition get_errno : M Z := fun w => (errno w, w).

Definition printf (fmt : string) (args : list Z) : M unit :=
  fun w => (tt, mk_world (initialized w) (fd w) (errno w) (open_fds w)
                         (trace w) (console w ++ [(fmt, args)]) (env w)).

(** Modelled from the spec: [get_state()] of robotics_cape.h, the read access
    point of the Cancellation Signal; the value is owned by the environment. *)
Definition get_state : M state_t :=
  fun w => (flow (env w) (List.length (trace w)), w).

(** The answer the environment gives to the next system call. *)
Definition next_reply (w : world) : reply := answer (env w) (List.length (trace w)).

(** Appends a system call to the log, with the new table of descriptors. *)
Definition log (e : syscall) (fds : list Z) (err : Z) (w : world) : world :=
  mk_world (initialized w) (fd w) err fds (trace w ++ [e]) (console w) (env w).

Definition sys_open (path : string) (flags : Z) : M Z :=
  fun w =>
    let r := result (next_reply w) in
    let fds := if r <? 0 then open_fds w else r :: open_fds w in
    (r, log (Sys_open path flags r) fds (errno w) w).

Definition sys_close (d : Z) : M unit :=
  fun w => (tt, log (Sys_close d) (remove Z.eq_dec d (open_fds w)) (errno w) w).

Definition sys_tcsetattr (d actions : Z) (config : termios) : M Z :=
  fun w =>
    let r := result (next_reply w) in
    (r, log (Sys_tcsetattr d actions config r) (open_fds w) (errno w) w).

Definition sys_tcflush (d queue : Z) : M Z :=
  fun w =>
    let r := result (next_reply w) in
    (r, log (Sys_tcflush d queue r) (open_fds w) (errno w) w).

(** [write] takes [count] bytes at [data] and accepts at most that many. *)
Definition sys_write (d : Z) (data : list Byte.byte) (count : Z) : M Z :=
  fun w =>
    let payload := firstn (Z.to_nat count) data in
    let r := result (next_reply w) in
    let r := if r <? 0 then r else Z.min r count in
    (r, log (Sys_write d payload r) (open_fds w) (errno w) w).

(** [read] delivers at most [count] of the bytes waiting, or fails. *)
Definition sys_read (d : Z) (count : Z) : M (Z * list Byte.byte) :=
  fun w =>
    let a := next_reply w in
    if result a <? 0 then
      ((result a, []), log (Sys_read d count (result a) []) (open_fds w) (errno w) w)
    else
      let data := firstn (Z.to_nat count) (incoming a) in
      let r := Z.of_nat (List.length data) in
      ((r, data), log (Sys_read d count r data) (open_fds w) (errno w) w).

Definition tv_to_usec (tv : timeval) : Z := tv_sec tv * 1000000 + tv_usec tv.

Definition tv_of_usec (us : Z) : timeval :=
  mk_timeval (us / 1000000) (us mod 1000000).

(** [select] on one descriptor, as Linux does it: a negative timeout is
    refused with EINVAL; otherwise the call blocks until the event or until
    the timeout has run out, and writes the time not slept back into the
    timeout structure.  The result carries the updated structure. *)
Definition sys_select (nfds d : Z) (tv : timeval) : M (Z * timeval) :=
  fun w =>
    if (tv_sec tv <? 0) || (tv_usec tv <? 0) then
      ((-1, tv), log (Sys_select nfds d tv (-1) tv 0) (open_fds w) EINVAL w)
    else
      let budget := tv_to_usec tv in
      let timed_out :=
        ((0, tv_of_usec 0),
         log (Sys_select nfds d tv 0 (tv_of_usec 0) budget) (open_fds w) (errno w) w) in
      match wait (next_reply w) with
      | DataArrives delay =>
          let t := Z.max 0 delay in
          if t <=? budget then
            let left := tv_of_usec (budget - t) in
            ((1, left), log (Sys_select nfds d tv 1 left t) (open_fds w) (errno w) w)
          else timed_out
      | WaitFails delay code =>
          let t := Z.max 0 delay in
          if t <=? budget then
            let left := tv_of_usec (budget - t) in
            ((-1, left), log (Sys_select nfds d tv (-1) left t) (open_fds w) code w)
          else timed_out
      end.

(** [cfsetispeed] and [cfsetospeed] only fill in the structure; for the
    symbolic rates of [speed_t] they succeed. *)
Definition cfsetispeed (config : termios) (speed : speed_t) : Z * termios :=
  (0, mk_termios (c_iflag config) (c_oflag config) (c_cflag config) (c_lflag config)
                 (c_cc_VTIME config) (c_cc_VMIN config) speed (c_ospeed config)).

Definition cfsetospeed (config : termios) (speed : speed_t) : Z * termios :=
  (0, mk_termios (c_iflag config) (c_oflag config) (c_cflag config) (c_lflag config)
                 (c_cc_VTIME config) (c_cc_VMIN config) (c_ispeed config) speed).

(** ** The functions of simple_uart.c *)

(** The [switch] of [initialize_uart]; [None] is its [default] branch. *)
Definition speed_of_baudrate (baudrate : Z) : option speed_t :=
  match baudrate with
  | 230400 => Some B230400
  | 115200 => Some B115200
  | 57600 => Some B57600
  | 38400 => Some B38400
  | 19200 => Some B19200
  | 9600 => Some B9600
  | 4800 => Some B4800
  | 2400 => Some B2400
  | 1800 => Some B1800
  | 1200 => Some B1200
  | 600 => Some B600
  | 300 => Some B300
  | 200 => Some B200
  | 150 => Some B150
  | 134 => Some B134
  | 110 => Some B110
  | 75 => Some B75
  | 50 => Some B50
  | _ => None
  end.

(** The enumerated set of accepted rates. *)
Definition accepted_baudrates : list Z :=
  [230400; 115200; 57600; 38400; 19200; 9600; 4800; 2400; 1800;
   1200; 600; 300; 200; 150; 134; 110; 75; 50].

Definition bus_out_of_range (bus : Z) : bool := (bus <? MIN_BUS) || (bus >? MAX_BUS).

Definition bus_range_error : M unit :=
  printf "ERROR: uart bus must be between %d & %d\n" [MIN_BUS; MAX_BUS].

Definition close_uart (bus : Z) : M Z :=
  if bus_out_of_range bus then
    bus_range_error ;; ret (-1)
  else
    i <- get_initialized bus ;;
    if i =? 0 then ret 0
    else
      d <- get_fd bus ;;
      sys_close d ;;
      set_initialized bus 0 ;;
      ret 0.

Definition get_uart_fd (bus : Z) : M Z :=
  if bus_out_of_range bus then
    bus_range_error ;; ret (-1)
  else
    i <- get_initialized bus ;;
    if i =? 0 then
      printf "ERROR: uart%d not initialized yet\n" [bus] ;; ret (-1)
    else get_fd bus.

Definition flush_uart (bus : Z) : M Z :=
  if bus_out_of_range bus then
    bus_range_error ;; ret (-1)
  else
    i <- get_initialized bus ;;
    if i =? 0 then
      printf "ERROR: uart%d must be initialized first\n" [bus] ;; ret (-1)
    else
      d <- get_fd bus ;;
      sys_tcflush d TCIFLUSH.

Definition initialize_uart (bus baudrate : Z) : M Z :=
  if bus_out_of_range bus then
    bus_range_error ;; ret (-1)
  else
    match speed_of_baudrate baudrate with
    | None =>
        printf "ERROR: invalid speed. Please use a standard baudrate\n" [] ;;
        ret (-1)
    | Some speed =>
        close_uart bus ;;
        r <- sys_open (nth (Z.to_nat bus) paths "") (Z.lor O_RDWR O_NOCTTY) ;;
        set_fd bus r ;;
        if r <? 0 then
          printf "error opening uart%d in /dev/\n" [bus] ;;
          printf "device tree overlay probably isn't loaded\n" [] ;;
          ret (-1)
        else
          let config := mk_termios 0 0 (Z.lor (Z.lor CS8 CREAD) CLOCAL) 0 0 1 B0 B0 in
          let (r1, config) := cfsetispeed config speed in
          if r1 <? 0 then
            printf "ERROR: cannot set uart%d baud rate\n" [bus] ;; ret (-1)
          else
            let (r2, config) := cfsetospeed config speed in
            if r2 <? 0 then
              printf "ERROR: cannot set uart%d baud rate\n" [bus] ;; ret (-1)
            else
              d <- get_fd bus ;;
              r3 <- sys_tcsetattr d TCSAFLUSH config ;;
              if r3 <? 0 then
                printf "cannot set uart%d attributes\n" [bus] ;; ret (-1)
              else
                set_initialized bus 1 ;;
                flush_uart bus ;;
                ret 0
    end.

Definition uart_send_bytes (bus bytes : Z) (data : list Byte.byte) : M Z :=
  if bus_out_of_range bus then
    bus_range_error ;; ret (-1)
  else if bytes <? 1 then
    printf "ERROR: number of bytes to send must be >1\n" [] ;; ret (-1)
  else
    i <- get_initialized bus ;;
    if i =? 0 then
      printf "ERROR: uart%d must be initialized first\n" [bus] ;; ret (-1)
    else
      d <- get_fd bus ;;
      sys_write d data bytes.

Definition uart_send_byte (bus : Z) (data : Byte.byte) : M Z :=
  if bus_out_of_range bus then
    bus_range_error ;; ret (-1)
  else
    i <- get_initialized bus ;;
    if i =? 0 then
      printf "ERROR: uart%d must be initialized first\n" [bus] ;; ret (-1)
    else
      d <- get_fd bus ;;
      sys_write d [data] 1.

(** *** uart_read_bytes *)

(** The local variables of [uart_read_bytes] that live across iterations,
    and the caller's buffer [buf] seen as the bytes it holds. *)
Record locals : Type := mk_locals {
  bytes_read : Z;
  bytes_left : Z;
  timeout : timeval;
  buf : list Byte.byte
}.

(** The bytes [data] written at [base + off]. *)
Definition store (base : list Byte.byte) (off : Z) (data : list Byte.byte)
  : list Byte.byte :=
  firstn (Z.to_nat off) base ++ data
    ++ skipn (Z.to_nat off + List.length data) base.

(** How one pass through the loop body ends. *)
Inductive outcome : Type :=
| Continue (st : locals)                    (* back to the loop condition *)
| Return (r : Z) (mem : list Byte.byte).    (* [return r;] *)

(** [timeout.tv_sec = timeout_ms/1000; timeout.tv_usec = (timeout_ms%1000)*1000]
    with the truncating division of C. *)
Definition timeval_of_ms (timeout_ms : Z) : timeval :=
  mk_timeval (Z.quot timeout_ms 1000) (Z.rem timeout_ms 1000 * 1000).

Definition read_entry (bytes : Z) (dest : list Byte.byte) (timeout_ms : Z) : locals :=
  mk_locals 0 bytes (timeval_of_ms timeout_ms) dest.

(** [(bytes_left>0)&&get_state()!=EXITING] *)
Definition loop_condition (st : locals) : M bool :=
  if bytes_left st >? 0 then
    s <- get_state ;;
    ret (negb (state_eqb s EXITING))
  else ret false.

(** [FD_ZERO; FD_SET(fd[bus]); select(fd[bus] + 1, &set, NULL, NULL, &timeout)]:
    the wait, on the timeout structure as it stands. *)
Definition wait_readable (bus : Z) (st : locals) : M (Z * timeval) :=
  d <- get_fd bus ;;
  sys_select (wrap_int (d + 1)) d (timeout st).

Definition loop_body (bus : Z) (st : locals) : M outcome :=
  sel <- wait_readable bus st ;;
  let (r, tv) := sel in
  if r =? -1 then
    e <- get_errno ;;
    if negb (e =? EINTR) then
      printf "uart select() error: %s\n" [e] ;;
      ret (Return (-1) (buf st))
    else ret (Return (bytes_read st) (buf st))
  else if r =? 0 then
    ret (Return (bytes_read st) (buf st))
  else
    d <- get_fd bus ;;
    rd <- sys_read d (bytes_left st) ;;
    let (n, data) := rd in
    if n <? 0 then
      printf "ERROR: uart read() returned %d\n" [n] ;;
      ret (Return (-1) (buf st))
    else if n >? 0 then
      ret (Continue (mk_locals (wrap_int (bytes_read st + n))
                               (wrap_int (bytes_left st - n))
                               tv
                               (store (buf st) (bytes_read st) data)))
    else
      ret (Continue (mk_locals (bytes_read st) (bytes_left st) tv (buf st))).

(** The [while] loop.  A device that keeps signalling readiness and then
    delivers nothing keeps the loop going for ever, so the loop is run with
    a bound on the number of passes; [None] says the bound was reached. *)
Fixpoint read_loop (fuel : nat) (bus : Z) (st : locals)
  : M (option Z * list Byte.byte) :=
  match fuel with
  | O => ret (None, buf st)
  | S fuel' =>
      c <- loop_condition st ;;
      if c then
        o <- loop_body bus st ;;
        match o with
        | Continue st' => read_loop fuel' bus st'
        | Return r mem => ret (Some r, mem)
        end
      else ret (Some (bytes_read st), buf st)
  end.

(** The result is the [int] returned and the contents of [buf] afterwards. *)
Definition uart_read_bytes (fuel : nat) (bus bytes : Z) (dest : list Byte.byte)
                           (timeout_ms : Z) : M (option Z * list Byte.byte) :=
  if bus_out_of_range bus then
    bus_range_error ;; ret (Some (-1), dest)
  else if bytes <? 1 then
    printf "ERROR: number of bytes to send must be >1\n" [] ;; ret (Some (-1), dest)
  else
    i <- get_initialized bus ;;
    if i =? 0 then
      printf "ERROR: uart%d must be initialized first\n" [bus] ;; ret (Some (-1), dest)
    else
      read_loop fuel bus (read_entry bytes dest timeout_ms).

(** ** Observations on runs *)

(** [passes k bus st] makes [k] full passes through the loop from [st]:
    each time the condition holds and the body goes back to the condition.
    It yields the locals at the [k]-th return to the condition, and [None]
    when the loop is left earlier. *)
Fixpoint passes (k : nat) (bus : Z) (st : locals) : M (option locals) :=
  match k with
  | O => ret (Some st)
  | S k' =>
      c <- loop_condition st ;;
      if c then
        o <- loop_body bus st ;;
        match o with
        | Continue st' => passes k' bus st'
        | Return _ _ => ret None
        end
      else ret None
  end.

(** The system calls a run has added to the log. *)
Definition calls_since (w w' : world) : list syscall :=
  skipn (List.length (trace w)) (trace w').

(** The bytes the [read] calls of a log have delivered. *)
Fixpoint bytes_delivered (l : list syscall) : Z :=
  match l with
  | [] => 0
  | Sys_read _ _ r _ :: l' => Z.max 0 r + bytes_delivered l'
  | _ :: l' => bytes_delivered l'
  end.

(** The time spent blocked in the [select] calls of a log, in microseconds. *)
Fixpoint time_waited (l : list syscall) : Z :=
  match l with
  | [] => 0
  | Sys_select _ _ _ _ _ t :: l' => t + time_waited l'
  | _ :: l' => time_waited l'
  end.

(** The [select] calls of a log form a chain from [tv]: the first one is
    given [tv], and each later one is given the timeout structure as the
    one before it left it. *)
Fixpoint timeouts_chained (tv : timeval) (l : list syscall) : Prop :=
  match l with
  | [] => True
  | Sys_select _ _ tv_in _ tv_out _ :: l' => tv_in = tv /\ timeouts_chained tv_out l'
  | _ :: l' => timeouts_chained tv l'
  end.

(** No [select] and no [read] in a log. *)
Fixpoint no_wait_or_read (l : list syscall) : bool :=
  match l with
  | [] => true
  | Sys_select _ _ _ _ _ _ :: _ => false
  | Sys_read _ _ _ _ :: _ => false
  | _ :: l' => no_wait_or_read l'
  end.

(** What does not belong to the console: the registry, the kernel's table
    and the log of system calls. *)
Definition same_registry (w w' : world) : Prop :=
  initialized w' = initialized w /\ fd w' = fd w.

Definition no_io (w w' : world) : Prop :=
  trace w' = trace w /\ open_fds w' = open_fds w /\ errno w' = errno w
  /\ env w' = env w.

(** A call is refused with result [r]: nothing but the console changes. *)
Definition refused {A : Type} (c : M A) (w : world) (r : A) : Prop :=
  fst (c w) = r /\ same_registry w (snd (c w)) /\ no_io w (snd (c w)).

(** ... and [msg] is the one line it prints. *)
Definition rejects {A : Type} (c : M A) (w : world) (r : A) (fmt : string)
                   (args : list Z) : Prop :=
  refused c w r /\ console (snd (c w)) = console w ++ [(fmt, args)].

Definition rejects_bus {A : Type} (c : M A) (w : world) (r : A) : Prop :=
  rejects c w r "ERROR: uart bus must be between %d & %d\n" [MIN_BUS; MAX_BUS].

Definition rejects_count {A : Type} (c : M A) (w : world) (r : A) : Prop :=
  rejects c w r "ERROR: number of bytes to send must be >1\n" [].

(** The handle stored for [bus] is valid: it is an open descriptor. *)
Definition handle_valid (w : world) (bus : Z) : Prop :=
  In (array_get (fd w) bus) (open_fds w).

Definition is_initialized (w : world) (bus : Z) : Prop :=
  array_get (initialized w) bus <> 0.

(** The invariant of a bus slot. *)
Definition slot_invariant (w : world) (bus : Z) : Prop :=
  handle_valid w bus <-> is_initialized w bus.

Definition in_range (bus : Z) : Prop := MIN_BUS <= bus <= MAX_BUS.

(** The slots and the descriptors behind them are as they were. *)
Definition keeps_slots (w w' : world) : Prop :=
  initialized w' = initialized w /\ fd w' = fd w /\ open_fds w' = open_fds w.

(** Both tables have the six entries of the C arrays. *)
Definition six_slots (w : world) : Prop :=
  List.length (initialized w) = 6%nat /\ List.length (fd w) = 6%nat.

(** ** Worlds to run the functions in *)

Definition quiet : reply := mk_reply 0 (DataArrives 0) [].

(** A process that has just started: nothing initialized, nothing open. *)
Definition fresh_world (e : environment) : world :=
  mk_world [0; 0; 0; 0; 0; 0] [0; 0; 0; 0; 0; 0] 0 [] [] [] e.

(** A process in which bus 1 has been initialized on descriptor 3. *)
Definition bus1_world (e : environment) : world :=
  mk_world [0; 1; 0; 0; 0; 0] [0; 3; 0; 0; 0; 0] 0 [3] [] [] e.

Definition scripted (f : nat -> state_t) (l : list reply) : environment :=
  mk_environment f (fun n => nth n l quiet).

(** Nobody asks the process to exit and the devices have nothing to say. *)
Definition calm : environment := scripted (fun _ => RUNNING) [].

Definition on_select (e : wait_event) : reply := mk_reply 0 e [].
Definition on_read (data : list Byte.byte) : reply := mk_reply 0 (DataArrives 0) data.
Definition on_call (r : Z) : reply := mk_reply r (DataArrives 0) [].

Definition two_bytes : list Byte.byte := [Byte.x61; Byte.x62].
Definition four_blanks : list Byte.byte := [Byte.x20; Byte.x20; Byte.x20; Byte.x20].

(** Two bytes arrive after 0.4 s; nothing follows for longer than the rest
    of a one-second request. *)
Definition then_silence : environment :=
  scripted (fun _ => RUNNING)
           [on_select (DataArrives 400000); on_read two_bytes;
            on_select (DataArrives 700000)].

(** Two bytes arrive after 0.4 s; the next wait is interrupted by a signal. *)
Definition then_signal : environment :=
  scripted (fun _ => RUNNING)
           [on_select (DataArrives 400000); on_read two_bytes;
            on_select (WaitFails 100 EINTR)].

(** Two bytes arrive after 0.4 s; by then the process has been told to exit. *)
Definition then_exit : environment :=
  scripted (fun n => match n with O | S O => RUNNING | _ => EXITING end)
           [on_select (DataArrives 400000); on_read two_bytes].

(** The process is exiting from the start. *)
Definition exiting : environment := scripted (fun _ => EXITING) [].

(** The device opens on descriptor 3 and then refuses its attributes. *)
Definition config_fails : environment :=
  scripted (fun _ => RUNNING) [on_call 3; on_call (-1)].

(** The device opens on descriptor 3 and accepts everything. *)
Definition device_ok : environment :=
  scripted (fun _ => RUNNING) [on_call 3; on_call 0; on_call 0].

(** Two bytes arrive after 0.4 s, three more 0.1 s later. *)
Definition two_then_three : environment :=
  scripted (fun _ => RUNNING)
           [on_select (DataArrives 400000); on_read two_bytes;
            on_select (DataArrives 100000);
            on_read [Byte.x63; Byte.x64; Byte.x65]].

(** The locals after the first pass in the worlds above. *)
Definition after_two_bytes : locals :=
  mk_locals 2 2 (mk_timeval 0 600000)
            [Byte.x61; Byte.x62; Byte.x20; Byte.x20].

(** ** Further observations on runs *)

(** Every transfer function refuses [bus] in the world [w] with -1. *)
Definition transfers_refused (bus : Z) (w : world) : Prop :=
  refused (get_uart_fd bus) w (-1)
  /\ refused (flush_uart bus) w (-1)
  /\ (forall bytes data, refused (uart_send_bytes bus bytes data) w (-1))
  /\ (forall data, refused (uart_send_byte bus data) w (-1))
  /\ (forall fuel bytes dest timeout_ms,
        refused (uart_read_bytes fuel bus bytes dest timeout_ms) w (Some (-1), dest)).

(** The slots other than [bus] hold in [w'] what they hold in [w]. *)
Definition other_slots_kept (bus : Z) (w w' : world) : Prop :=
  forall bus', in_range bus' -> bus' <> bus ->
    array_get (initialized w') bus' = array_get (initialized w) bus'
    /\ array_get (fd w') bus' = array_get (fd w) bus'.

(** The structure [initialize_uart] hands to [tcsetattr] for [speed]. *)
Definition raw_8n1 (speed : speed_t) : termios :=
  mk_termios 0 0 (Z.lor (Z.lor CS8 CREAD) CLOCAL) 0 0 1 speed speed.

(** The bytes the [read] calls of a log have delivered, in order. *)
Fixpoint received (l : list syscall) : list Byte.byte :=
  match l with
  | [] => []
  | Sys_read _ _ _ data :: l' => data ++ received l'
  | _ :: l' => received l'
  end.

(** The log of a read loop on descriptor [d] with [remaining] bytes still
    to get: waits on [d], each with [d + 1] as the number of descriptors,
    and after a wait that reported [d] readable one [read] on [d] that asks
    for exactly [remaining] bytes. *)
Fixpoint read_protocol (d remaining : Z) (l : list syscall) : Prop :=
  match l with
  | [] => True
  | Sys_select nfds d' _ r _ _ :: l' =>
      d' = d /\ nfds = wrap_int (d + 1)
      /\ match l' with
         | [] => r <> 1
         | Sys_read d'' count n _ :: l'' =>
             r = 1 /\ d'' = d /\ count = remaining
             /\ read_protocol d (remaining - Z.max 0 n) l''
         | _ => False
         end
  | _ => False
  end.

(** Every [read] that succeeds finds at least one byte. *)
Definition reads_deliver (e : environment) : Prop :=
  forall n, result (answer e n) < 0 \/ incoming (answer e n) <> [].

(** The process is never told to exit, the descriptor is readable as soon
    as it is waited for, and every [read] succeeds with no byte at all. *)
Definition ready_but_empty (e : environment) : Prop :=
  forall n,
    flow e n = RUNNING
    /\ 0 <= result (answer e n)
    /\ (exists delay, wait (answer e n) = DataArrives delay /\ delay <= 0)
    /\ incoming (answer e n) = [].

(** A process in which bus 1 is initialized on descriptor 3 and bus 2 on
    descriptor 4. *)
Definition two_bus_world (e : environment) : world :=
  mk_world [0; 1; 1; 0; 0; 0] [0; 3; 4; 0; 0; 0] 0 [3; 4] [] [] e.


(** One byte is there at every read. *)
Definition steady : environment :=
  mk_environment (fun _ => RUNNING)
                 (fun _ => mk_reply 0 (DataArrives 10) [Byte.x61]).

(** ** Basic facts *)

Lemma bus_out_of_range_true (bus : Z) : ~ in_range bus -> bus_out_of_range bus = true.
Proof.
  unfold in_range, bus_out_of_range, MIN_BUS, MAX_BUS. intros H.
  destruct (bus <? 0) eqn:E1; [reflexivity|].
  destruct (bus >? 5) eqn:E2; [reflexivity|]. lia.
Qed.

Lemma bus_out_of_range_false (bus : Z) : in_range bus -> bus_out_of_range bus = false.
Proof.
  unfold in_range, bus_out_of_range, MIN_BUS, MAX_BUS. intros H.
  destruct (bus <? 0) eqn:E1; [lia|].
  destruct (bus >? 5) eqn:E2; [lia|reflexivity].
Qed.

Lemma not_initialized_eqb (w : world) (bus : Z) :
  ~ is_initialized w bus -> (array_get (initialized w) bus =? 0) = true.
Proof.
  unfold is_initialized. intros H. apply Z.eqb_eq.
  destruct (Z.eq_dec (array_get (initialized w) bus) 0); [assumption|contradiction].
Qed.

Lemma is_initialized_eqb (w : world) (bus : Z) :
  is_initialized w bus -> (array_get (initialized w) bus =? 0) = false.
Proof. unfold is_initialized. intros H. now apply Z.eqb_neq. Qed.

Lemma rejects_printf {A : Type} (fmt : string) (args : list Z) (r : A) (w : world) :
  rejects (printf fmt args ;; ret r) w r fmt args.
Proof. repeat split. Qed.

Lemma list_set_nth_zero (a : list Z) (n : nat) : nth n (list_set a n 0) 0 = 0.
Proof.
  revert n. induction a as [|h t IH]; intros [|n]; simpl; auto.
Qed.

Lemma array_get_set_zero (a : list Z) (i : Z) : array_get (array_set a i 0) i = 0.
Proof. apply list_set_nth_zero. Qed.

Lemma speed_of_baudrate_accepted (b : Z) :
  In b accepted_baudrates -> speed_of_baudrate b <> None.
Proof.
  unfold accepted_baudrates. simpl.
  intros H. repeat (destruct H as [H|H]; [subst b; discriminate|]). contradiction.
Qed.

Lemma speed_of_baudrate_none (b : Z) :
  ~ In b accepted_baudrates -> speed_of_baudrate b = None.
Proof.
  intros H. destruct (speed_of_baudrate b) eqn:E; [|reflexivity].
  exfalso. apply H. clear H. unfold accepted_baudrates.
  destruct b as [|p|p]; try discriminate E.
  unfold speed_of_baudrate in E.
  repeat (destruct p as [p|p|]; try discriminate E);
    simpl; tauto.
Qed.

(** ** Validation *)

(** C7.  For a bus index outside MIN_BUS..MAX_BUS every operation returns -1
    after printing the range message; the registry, the kernel's table and
    the log of system calls are as before (no I/O), and [uart_read_bytes]
    leaves the destination buffer alone. *)
Theorem out_of_range_bus_rejected (bus : Z) (w : world) :
  ~ in_range bus ->
  (forall baudrate, rejects_bus (initialize_uart bus baudrate) w (-1))
  /\ rejects_bus (close_uart bus) w (-1)
  /\ rejects_bus (get_uart_fd bus) w (-1)
  /\ rejects_bus (flush_uart bus) w (-1)
  /\ (forall bytes data, rejects_bus (uart_send_bytes bus bytes data) w (-1))
  /\ (forall data, rejects_bus (uart_send_byte bus data) w (-1))
  /\ (forall fuel bytes dest timeout_ms,
        rejects_bus (uart_read_bytes fuel bus bytes dest timeout_ms) w
                    (Some (-1), dest)).
Proof.
  intros H. apply bus_out_of_range_true in H.
  unfold rejects_bus, initialize_uart, close_uart, get_uart_fd, flush_uart,
    uart_send_bytes, uart_send_byte, uart_read_bytes.
  rewrite H. repeat split.
Qed.

Lemma out_of_range_bus_rejected_witness :
  ~ in_range 6
  /\ rejects_bus (close_uart 6) (fresh_world calm) (-1).
Proof.
  assert (H : ~ in_range 6) by (unfold in_range, MIN_BUS, MAX_BUS; lia).
  split; [exact H|].
  exact (proj1 (proj2 (out_of_range_bus_rejected 6
                         (fresh_world calm) H))).
Defined.

(** C9.  A read or a send of fewer than one byte returns -1 with no I/O and
    no change to the registry (and the buffer of the read as it was); on a
    bus in range the line printed is the one about the number of bytes. *)
Theorem count_below_one_rejected (bus bytes : Z) (w : world) :
  bytes < 1 ->
  (forall fuel dest timeout_ms,
      refused (uart_read_bytes fuel bus bytes dest timeout_ms) w (Some (-1), dest))
  /\ (forall data, refused (uart_send_bytes bus bytes data) w (-1))
  /\ (in_range bus ->
      (forall fuel dest timeout_ms,
          rejects_count (uart_read_bytes fuel bus bytes dest timeout_ms) w
                        (Some (-1), dest))
      /\ (forall data, rejects_count (uart_send_bytes bus bytes data) w (-1))).
Proof.
  intros H. apply Z.ltb_lt in H.
  unfold rejects_count, uart_read_bytes, uart_send_bytes.
  destruct (bus_out_of_range bus) eqn:E.
  - split; [repeat split|]. split; [repeat split|].
    intros R. apply bus_out_of_range_false in R. congruence.
  - rewrite H. repeat split.
Qed.

Lemma count_below_one_rejected_witness :
  0 < 1
  /\ refused (uart_read_bytes 10 1 0 [] 1000) (bus1_world calm) (Some (-1), []).
Proof.
  assert (H : 0 < 1) by lia.
  split; [exact H|].
  exact (proj1 (count_below_one_rejected 1 0 (bus1_world calm) H) 10%nat [] 1000).
Defined.

(** C6.  For a baud rate outside the accepted set [initialize_uart] returns
    -1 with the registry (flags and handles) as before and no I/O; on a bus
    in range the line printed is the one about the invalid speed. *)
Theorem unsupported_baudrate_rejected (bus baudrate : Z) (w : world) :
  ~ In baudrate accepted_baudrates ->
  refused (initialize_uart bus baudrate) w (-1)
  /\ (in_range bus ->
      rejects (initialize_uart bus baudrate) w (-1)
              "ERROR: invalid speed. Please use a standard baudrate\n" []).
Proof.
  intros H. apply speed_of_baudrate_none in H.
  unfold initialize_uart. rewrite H.
  destruct (bus_out_of_range bus) eqn:E.
  - split; [repeat split|].
    intros R. apply bus_out_of_range_false in R. congruence.
  - repeat split.
Qed.

Lemma unsupported_baudrate_rejected_witness :
  ~ In 9601 accepted_baudrates
  /\ refused (initialize_uart 1 9601) (bus1_world calm)
             (-1).
Proof.
  assert (H : ~ In 9601 accepted_baudrates).
  { unfold accepted_baudrates. simpl. intros H.
    repeat (destruct H as [H|H]; [discriminate H|]). exact H. }
  split; [exact H|].
  exact (proj1 (unsupported_baudrate_rejected 1 9601
                  (bus1_world calm) H)).
Defined.

(** ** close_uart *)

(** C8.  On a bus in range that is not initialized [close_uart] returns 0
    and changes nothing at all; and whatever the bus was before, a second
    [close_uart] right after the first returns 0 and leaves the world as the
    first one left it. *)
Theorem close_uart_idempotent (bus : Z) (w : world) :
  in_range bus ->
  (~ is_initialized w bus -> close_uart bus w = (0, w))
  /\ fst (close_uart bus w) = 0
  /\ close_uart bus (snd (close_uart bus w)) = (0, snd (close_uart bus w)).
Proof.
  intros R. apply bus_out_of_range_false in R.
  assert (N : forall v, ~ is_initialized v bus -> close_uart bus v = (0, v)).
  { intros v H. apply not_initialized_eqb in H.
    unfold close_uart, bind, get_initialized. rewrite R, H. reflexivity. }
  split; [apply N|].
  destruct (Z.eq_dec (array_get (initialized w) bus) 0) as [E|E].
  - rewrite (N w) by (unfold is_initialized; lia). simpl.
    split; [reflexivity|]. apply N. unfold is_initialized. lia.
  - apply Z.eqb_neq in E.
    unfold close_uart at 1 3 4. unfold bind, get_initialized. rewrite R, E. simpl.
    split; [reflexivity|]. apply N.
    unfold is_initialized. simpl. rewrite array_get_set_zero. lia.
Qed.

Lemma close_uart_idempotent_witness :
  in_range 1
  /\ snd (close_uart 1 (snd (close_uart 1 (bus1_world calm))))
     = snd (close_uart 1 (bus1_world calm)).
Proof.
  assert (H : in_range 1) by (unfold in_range, MIN_BUS, MAX_BUS; lia).
  split; [exact H|].
  exact (f_equal snd (proj2 (proj2 (close_uart_idempotent 1
           (bus1_world calm) H)))).
Defined.

(** ** The timeout structure *)

Lemma wrap_int_small (z : Z) : INT_MIN <= z <= INT_MAX -> wrap_int z = z.
Proof.
  unfold INT_MIN, INT_MAX, wrap_int. intros H.
  rewrite Z.mod_small; lia.
Qed.

Lemma tv_to_usec_of_usec (us : Z) : tv_to_usec (tv_of_usec us) = us.
Proof.
  unfold tv_to_usec, tv_of_usec. simpl.
  pose proof (Z.div_mod us 1000000). lia.
Qed.

Lemma tv_of_usec_valid (us : Z) :
  0 <= us -> (tv_sec (tv_of_usec us) <? 0) || (tv_usec (tv_of_usec us) <? 0) = false.
Proof.
  intros H. unfold tv_of_usec. simpl.
  pose proof (Z.div_pos us 1000000 H ltac:(lia)).
  pose proof (Z.mod_pos_bound us 1000000 ltac:(lia)).
  apply orb_false_iff. split; apply Z.ltb_ge; lia.
Qed.

(** The structure filled in at entry holds the request, in microseconds. *)
Lemma tv_to_usec_of_ms (timeout_ms : Z) :
  tv_to_usec (timeval_of_ms timeout_ms) = 1000 * timeout_ms.
Proof.
  unfold tv_to_usec, timeval_of_ms. cbn [tv_sec tv_usec].
  pose proof (Z.quot_rem' timeout_ms 1000) as E.
  generalize dependent (Z.quot timeout_ms 1000).
  generalize (Z.rem timeout_ms 1000). intros. lia.
Qed.

(** ** System calls *)

Lemma trace_log (e : syscall) (fds : list Z) (err : Z) (w : world) :
  trace (log e fds err w) = trace w ++ [e].
Proof. reflexivity. Qed.

(** What a [select] does to the log and to the timeout structure: it never
    blocks for longer than the structure allows, and what it leaves in the
    structure plus the time it blocked is within what it was given. *)
Lemma sys_select_spec (nfds d : Z) (tv : timeval) (w : world) :
  exists r tv' t err,
    sys_select nfds d tv w
    = ((r, tv'), log (Sys_select nfds d tv r tv' t) (open_fds w) err w)
    /\ 0 <= t
    /\ t + Z.max 0 (tv_to_usec tv') <= Z.max 0 (tv_to_usec tv)
    /\ (r = -1 \/ (r = 0 \/ r = 1) /\ err = errno w).
Proof.
  unfold sys_select.
  destruct ((tv_sec tv <? 0) || (tv_usec tv <? 0)) eqn:V.
  - exists (-1), tv, 0, EINVAL. repeat split; auto; lia.
  - apply orb_false_iff in V. destruct V as [V1 V2].
    apply Z.ltb_ge in V1, V2.
    assert (B : 0 <= tv_to_usec tv) by (unfold tv_to_usec; lia).
    destruct (wait (next_reply w)) as [delay|delay code];
      destruct (Z.max 0 delay <=? tv_to_usec tv) eqn:L.
    + apply Z.leb_le in L.
      exists 1, (tv_of_usec (tv_to_usec tv - Z.max 0 delay)), (Z.max 0 delay), (errno w).
      rewrite tv_to_usec_of_usec. repeat split; auto; lia.
    + exists 0, (tv_of_usec 0), (tv_to_usec tv), (errno w).
      rewrite tv_to_usec_of_usec. repeat split; auto; lia.
    + apply Z.leb_le in L.
      exists (-1), (tv_of_usec (tv_to_usec tv - Z.max 0 delay)), (Z.max 0 delay), code.
      rewrite tv_to_usec_of_usec. repeat split; auto; lia.
    + exists 0, (tv_of_usec 0), (tv_to_usec tv), (errno w).
      rewrite tv_to_usec_of_usec. repeat split; auto; lia.
Qed.

(** A [read] fails or delivers between 0 and [count] bytes. *)
Lemma sys_read_spec (d count : Z) (w : world) :
  exists n data,
    sys_read d count w
    = ((n, data), log (Sys_read d count n data) (open_fds w) (errno w) w)
    /\ (n < 0 \/ 0 <= n <= Z.max 0 count /\ n = Z.of_nat (List.length data)).
Proof.
  unfold sys_read. destruct (result (next_reply w) <? 0) eqn:E.
  - apply Z.ltb_lt in E. eexists _, _. split; [reflexivity|]. left. exact E.
  - eexists _, _. split; [reflexivity|]. right.
    pose proof (firstn_le_length (Z.to_nat count) (incoming (next_reply w))).
    split; [|reflexivity]. lia.
Qed.

(** ** One pass through the loop body *)

(** The five ways through the body: the wait is interrupted, the wait fails,
    the wait times out, the read fails, the read delivers [n] bytes. *)
Lemma loop_body_cases (bus : Z) (st : locals) (w : world) :
  exists r tv' t err n data,
    let d := array_get (fd w) bus in
    let w1 := log (Sys_select (wrap_int (d + 1)) d (timeout st) r tv' t)
                  (open_fds w) err w in
    let w2 := log (Sys_read d (bytes_left st) n data) (open_fds w) err w1 in
    wait_readable bus st w = ((r, tv'), w1)
    /\ 0 <= t
    /\ t + Z.max 0 (tv_to_usec tv') <= Z.max 0 (tv_to_usec (timeout st))
    /\ ((r = -1 /\ err = EINTR
         /\ loop_body bus st w = (Return (bytes_read st) (buf st), w1))
        \/ (r = -1 /\ err <> EINTR
            /\ loop_body bus st w
               = (Return (-1) (buf st),
                  snd (printf "uart select() error: %s\n" [err] w1)))
        \/ (r = 0
            /\ loop_body bus st w = (Return (bytes_read st) (buf st), w1))
        \/ (r = 1 /\ n < 0
            /\ loop_body bus st w
               = (Return (-1) (buf st),
                  snd (printf "ERROR: uart read() returned %d\n" [n] w2)))
        \/ (r = 1 /\ 0 <= n <= Z.max 0 (bytes_left st)
            /\ n = Z.of_nat (List.length data)
            /\ loop_body bus st w
               = (Continue
                    (if n >? 0
                     then mk_locals (wrap_int (bytes_read st + n))
                                    (wrap_int (bytes_left st - n)) tv'
                                    (store (buf st) (bytes_read st) data)
                     else mk_locals (bytes_read st) (bytes_left st) tv' (buf st)),
                  w2))).
Proof.
  unfold loop_body, wait_readable, bind, get_fd, get_errno.
  destruct (sys_select_spec (wrap_int (array_get (fd w) bus + 1))
              (array_get (fd w) bus) (timeout st) w)
    as (r & tv' & t & err & E & T0 & T1 & R).
  rewrite E. cbn [fst snd].
  destruct R as [R|[[R|R] Err]]; subst r.
  - exists (-1), tv', t, err, 0, []. cbn zeta.
    split; [reflexivity|]. split; [assumption|]. split; [assumption|].
    cbn [Z.eqb Pos.eqb errno log].
    destruct (err =? EINTR) eqn:I; cbn [negb].
    + apply Z.eqb_eq in I. left. auto.
    + apply Z.eqb_neq in I. right. left. auto.
  - exists 0, tv', t, err, 0, []. cbn zeta.
    split; [reflexivity|]. split; [assumption|]. split; [assumption|].
    right. right. left. auto.
  - subst err.
    destruct (sys_read_spec (array_get (fd w) bus) (bytes_left st)
                (log (Sys_select (wrap_int (array_get (fd w) bus + 1))
                        (array_get (fd w) bus) (timeout st) 1 tv' t)
                     (open_fds w) (errno w) w))
      as (n & data & Erd & N).
    exists 1, tv', t, (errno w), n, data. cbn zeta.
    split; [reflexivity|]. split; [assumption|]. split; [assumption|].
    cbn [Z.eqb Pos.eqb].
    change (fd (log (Sys_select (wrap_int (array_get (fd w) bus + 1))
                       (array_get (fd w) bus) (timeout st) 1 tv' t)
                    (open_fds w) (errno w) w)) with (fd w).
    rewrite Erd.
    destruct N as [N|[N L]].
    + right. right. right. left.
      assert (Hn : (n <? 0) = true) by (apply Z.ltb_lt; exact N).
      rewrite Hn. auto.
    + right. right. right. right.
      assert (Hn : (n <? 0) = false) by (apply Z.ltb_ge; lia).
      rewrite Hn. split; [reflexivity|]. split; [assumption|]. split; [assumption|].
      destruct (n >? 0); reflexivity.
Qed.

(** ** The loop *)

Lemma loop_condition_eq (st : locals) (w : world) :
  loop_condition st w
  = ((bytes_left st >? 0) && negb (state_eqb (fst (get_state w)) EXITING), w).
Proof.
  unfold loop_condition, bind, get_state, ret.
  destruct (bytes_left st >? 0); reflexivity.
Qed.

Lemma calls_since_app (w w' : world) (calls : list syscall) :
  trace w' = trace w ++ calls -> calls_since w w' = calls.
Proof.
  intros E. unfold calls_since. rewrite E, skipn_app, skipn_all, Nat.sub_diag.
  reflexivity.
Qed.

Lemma timeout_after_read (n : Z) (a b : Z) (c d : Z) (tv : timeval)
                         (m m' : list Byte.byte) :
  timeout (if n >? 0 then mk_locals a b tv m else mk_locals c d tv m') = tv.
Proof. destruct (n >? 0); reflexivity. Qed.

(** Whatever the loop does, its waits form one chain from the timeout
    structure it starts with, and together they block for no longer than
    that structure allows. *)
Lemma read_loop_waits (fuel : nat) (bus : Z) :
  forall (st : locals) (w : world),
  exists calls,
    trace (snd (read_loop fuel bus st w)) = trace w ++ calls
    /\ timeouts_chained (timeout st) calls
    /\ 0 <= time_waited calls <= Z.max 0 (tv_to_usec (timeout st)).
Proof.
  induction fuel as [|fuel IH]; intros st w.
  - exists []. simpl. rewrite app_nil_r. repeat split; lia.
  - cbn [read_loop]. unfold bind at 1. rewrite loop_condition_eq.
    destruct ((bytes_left st >? 0) && negb (state_eqb (fst (get_state w)) EXITING)).
    2:{ exists []. simpl. rewrite app_nil_r. repeat split; lia. }
    unfold bind.
    destruct (loop_body_cases bus st w)
      as (r & tv' & t & err & n & data & _ & T0 & T1 & C).
    cbn zeta in C.
    destruct C as [(_ & _ & E)|[(_ & _ & E)|[(_ & E)|[(_ & _ & E)|(_ & _ & _ & E)]]]];
      rewrite E.
    + eexists [_]. cbn. repeat split; lia.
    + eexists [_]. cbn. repeat split; lia.
    + eexists [_]. cbn. repeat split; lia.
    + eexists [_; _]. cbn. rewrite <- app_assoc. repeat split; lia.
    + match goal with
      | |- context [read_loop fuel bus ?s ?v] =>
          destruct (IH s v) as (calls & Tr & Ch & Tw)
      end.
      rewrite timeout_after_read in Ch, Tw.
      eexists (_ :: _ :: calls).
      rewrite Tr. cbn. rewrite <- !app_assoc. cbn.
      repeat split; [assumption|lia|lia].
Qed.

(** [k] passes that went round again are the first [k] passes of the loop. *)
Lemma passes_read_loop (k : nat) (bus : Z) :
  forall (st st' : locals) (w w' : world) (fuel : nat),
    passes k bus st w = (Some st', w') ->
    read_loop (k + fuel) bus st w = read_loop fuel bus st' w'.
Proof.
  induction k as [|k IH]; intros st st' w w' fuel P.
  - cbn in P. injection P as -> ->. reflexivity.
  - cbn [passes] in P. cbn [Nat.add read_loop].
    unfold bind at 1 in P. unfold bind at 1.
    destruct (loop_condition st w) as [[|] w0]; [|discriminate P].
    unfold bind in P. unfold bind.
    destruct (loop_body bus st w0) as [[s|r m] w1]; [|discriminate P].
    apply IH. exact P.
Qed.

Lemma counters_after_read (n a b : Z) (tv tv' : timeval) (m m' : list Byte.byte) :
  0 <= n <= b -> 0 <= a -> a + b <= INT_MAX ->
  let s := if n >? 0
           then mk_locals (wrap_int (a + n)) (wrap_int (b - n)) tv' m'
           else mk_locals a b tv' m in
  bytes_read s = a + n /\ bytes_left s = b - n.
Proof.
  intros N A S. destruct (n >? 0) eqn:G; cbn.
  - rewrite !wrap_int_small; [auto| |]; unfold INT_MIN, INT_MAX in *; lia.
  - assert (n = 0) by lia. subst n. lia.
Qed.

(** What holds of the locals and of the world each time the loop comes back
    to its condition: the counters add up to the request, [bytes_read] is
    the number of bytes the reads have delivered, and only the log of system
    calls has grown. *)
Lemma passes_spec (k : nat) (bus : Z) :
  forall (st st' : locals) (w w' : world),
    passes k bus st w = (Some st', w') ->
    0 <= bytes_read st -> 0 <= bytes_left st ->
    bytes_read st + bytes_left st <= INT_MAX ->
    exists calls,
      trace w' = trace w ++ calls
      /\ bytes_read st' = bytes_read st + bytes_delivered calls
      /\ 0 <= bytes_delivered calls
      /\ bytes_read st' + bytes_left st' = bytes_read st + bytes_left st
      /\ 0 <= bytes_left st'
      /\ same_registry w w' /\ open_fds w' = open_fds w /\ env w' = env w.
Proof.
  induction k as [|k IH]; intros st st' w w' P A B S.
  - cbn in P. injection P as -> ->. exists []. rewrite app_nil_r. cbn.
    repeat split; lia.
  - cbn [passes] in P. unfold bind at 1 in P. rewrite loop_condition_eq in P.
    destruct (bytes_left st >? 0) eqn:G; [|discriminate P].
    destruct (negb (state_eqb (fst (get_state w)) EXITING)); [|discriminate P].
    cbn [andb] in P. unfold bind in P.
    destruct (loop_body_cases bus st w)
      as (r & tv' & t & err & n & data & _ & _ & _ & C).
    cbn zeta in C.
    destruct C as [(_ & _ & E)|[(_ & _ & E)|[(_ & E)|[(_ & _ & E)|(_ & N & _ & E)]]]];
      rewrite E in P; try discriminate P.
    assert (N' : 0 <= n <= bytes_left st) by lia.
    destruct (counters_after_read n (bytes_read st) (bytes_left st) (timeout st) tv'
                (buf st) (store (buf st) (bytes_read st) data) N' A S) as [Cr Cl].
    apply IH in P; [|lia|lia|lia].
    destruct P as (calls & Tr & Br & Bd & Bs & Bl & (Ri & Rf) & Of & En).
    eexists (_ :: _ :: calls).
    rewrite Tr. cbn. rewrite <- !app_assoc. cbn.
    cbn in Ri, Rf, Of, En.
    repeat split; try assumption; lia.
Qed.

Lemma uart_read_bytes_valid (fuel : nat) (bus bytes : Z) (dest : list Byte.byte)
                            (timeout_ms : Z) (w : world) :
  in_range bus -> 1 <= bytes -> is_initialized w bus ->
  uart_read_bytes fuel bus bytes dest timeout_ms w
  = read_loop fuel bus (read_entry bytes dest timeout_ms) w.
Proof.
  intros R B I. unfold uart_read_bytes.
  assert (H : (bytes <? 1) = false) by (apply Z.ltb_ge; lia).
  rewrite (bus_out_of_range_false bus R), H.
  unfold bind at 1. unfold get_initialized.
  rewrite (is_initialized_eqb w bus I). reflexivity.
Qed.

Lemma uart_read_bytes_trace (fuel : nat) (bus bytes : Z) (dest : list Byte.byte)
                            (timeout_ms : Z) (w : world) :
  exists calls,
    trace (snd (uart_read_bytes fuel bus bytes dest timeout_ms w)) = trace w ++ calls
    /\ timeouts_chained (timeval_of_ms timeout_ms) calls
    /\ 0 <= time_waited calls <= Z.max 0 (tv_to_usec (timeval_of_ms timeout_ms)).
Proof.
  unfold uart_read_bytes.
  destruct (bus_out_of_range bus);
    [exists []; cbn; rewrite app_nil_r; repeat split; lia|].
  destruct (bytes <? 1);
    [exists []; cbn; rewrite app_nil_r; repeat split; lia|].
  unfold bind, get_initialized.
  destruct (array_get (initialized w) bus =? 0);
    [exists []; cbn; rewrite app_nil_r; repeat split; lia|].
  apply read_loop_waits.
Qed.

(** ** The timeout of uart_read_bytes *)

(** C1.  The timeout structure is filled in from [timeout_ms] once, at
    entry.  In the log of one call the first [select] is given that
    structure and every later [select] is given it as the [select] before
    left it, never a fresh one; and the time spent blocked in all the
    [select] calls of the call together is at most [timeout_ms]
    milliseconds (the log counts microseconds).  A negative request is
    refused by [select] and does not block at all. *)
Theorem timeout_is_a_depleting_budget
        (fuel : nat) (bus bytes : Z) (dest : list Byte.byte) (timeout_ms : Z)
        (w : world) :
  let w' := snd (uart_read_bytes fuel bus bytes dest timeout_ms w) in
  trace w' = trace w ++ calls_since w w'
  /\ timeouts_chained (timeval_of_ms timeout_ms) (calls_since w w')
  /\ 0 <= time_waited (calls_since w w') <= 1000 * Z.max 0 timeout_ms.
Proof.
  cbn zeta.
  destruct (uart_read_bytes_trace fuel bus bytes dest timeout_ms w)
    as (calls & Tr & Ch & Tw).
  rewrite (calls_since_app _ _ _ Tr). rewrite tv_to_usec_of_ms in Tw.
  repeat split; try assumption; lia.
Qed.

(** ** How uart_read_bytes ends *)

(** A valid call whose first [k] passes went round again stands, with the
    locals [st], at the loop condition; [bytes_read] counts what has been
    delivered since entry. *)
Lemma uart_read_bytes_reaches
      (bus bytes : Z) (dest : list Byte.byte) (timeout_ms : Z) (w wk : world)
      (k fuel : nat) (st : locals) :
  in_range bus -> 1 <= bytes <= INT_MAX -> is_initialized w bus ->
  passes k bus (read_entry bytes dest timeout_ms) w = (Some st, wk) ->
  (k < fuel)%nat ->
  (exists fuel',
      uart_read_bytes fuel bus bytes dest timeout_ms w
      = read_loop (S fuel') bus st wk)
  /\ 0 <= bytes_read st <= bytes
  /\ bytes_read st = bytes_delivered (calls_since w wk).
Proof.
  intros R B I P F.
  assert (A0 : 0 <= bytes_read (read_entry bytes dest timeout_ms)) by (cbn; lia).
  assert (B0 : 0 <= bytes_left (read_entry bytes dest timeout_ms)) by (cbn; lia).
  assert (S0 : bytes_read (read_entry bytes dest timeout_ms)
               + bytes_left (read_entry bytes dest timeout_ms) <= INT_MAX)
    by (cbn [read_entry bytes_read bytes_left]; lia).
  destruct (passes_spec k bus _ _ _ _ P A0 B0 S0)
    as (calls & Tr & Br & Bd & Bs & Bl & _).
  cbn in Br, Bs.
  rewrite (calls_since_app _ _ _ Tr).
  split; [|lia].
  exists (fuel - S k)%nat.
  rewrite uart_read_bytes_valid by (assumption || lia).
  replace fuel with (k + S (fuel - S k))%nat at 1 by lia.
  apply passes_read_loop. exact P.
Qed.

Lemma loop_body_timeout (bus : Z) (st : locals) (w : world) :
  fst (fst (wait_readable bus st w)) = 0 ->
  loop_body bus st w
  = (Return (bytes_read st) (buf st), snd (wait_readable bus st w)).
Proof.
  unfold loop_body, bind.
  destruct (wait_readable bus st w) as [[r tv] w1]. cbn.
  intros ->. reflexivity.
Qed.

Lemma loop_body_wait_failed (bus : Z) (st : locals) (w : world) :
  fst (fst (wait_readable bus st w)) = -1 ->
  loop_body bus st w
  = let w1 := snd (wait_readable bus st w) in
    if errno w1 =? EINTR
    then (Return (bytes_read st) (buf st), w1)
    else (Return (-1) (buf st),
          snd (printf "uart select() error: %s\n" [errno w1] w1)).
Proof.
  unfold loop_body, bind.
  destruct (wait_readable bus st w) as [[r tv] w1]. cbn.
  intros ->. cbn. destruct (errno w1 =? EINTR); reflexivity.
Qed.

Lemma read_loop_step (fuel : nat) (bus : Z) (st : locals) (w : world) :
  fst (loop_condition st w) = true ->
  read_loop (S fuel) bus st w
  = let (o, w1) := loop_body bus st w in
    match o with
    | Continue st' => read_loop fuel bus st' w1
    | Return r mem => (Some r, mem, w1)
    end.
Proof.
  intros C. cbn [read_loop]. unfold bind at 1.
  rewrite loop_condition_eq in *. cbn [fst] in C. rewrite C.
  unfold bind. destruct (loop_body bus st w) as [[s|r m] w1]; reflexivity.
Qed.

(** C2.  Take a valid call that stands at the loop condition after [k]
    passes, with the loop going on, and let the wait fail ([select] returns
    -1).  With EINTR the call returns [bytes_read], the number of bytes
    delivered so far, which is not negative, right after that wait.  With
    any other errno the call returns -1, whatever had been read, and makes
    no further system call. *)
Theorem failed_wait_interrupted_or_error
        (bus bytes : Z) (dest : list Byte.byte) (timeout_ms : Z) (w wk : world)
        (k fuel : nat) (st : locals) :
  in_range bus -> 1 <= bytes <= INT_MAX -> is_initialized w bus ->
  passes k bus (read_entry bytes dest timeout_ms) w = (Some st, wk) ->
  fst (loop_condition st wk) = true ->
  fst (fst (wait_readable bus st wk)) = -1 ->
  (k < fuel)%nat ->
  let w1 := snd (wait_readable bus st wk) in
  let run := uart_read_bytes fuel bus bytes dest timeout_ms w in
  0 <= bytes_read st <= bytes
  /\ bytes_read st = bytes_delivered (calls_since w wk)
  /\ (errno w1 = EINTR -> run = (Some (bytes_read st), buf st, w1))
  /\ (errno w1 <> EINTR ->
      fst (fst run) = Some (-1) /\ trace (snd run) = trace w1).
Proof.
  intros R B I P C W F. cbn zeta.
  destruct (uart_read_bytes_reaches bus bytes dest timeout_ms w wk k fuel st
              R B I P F) as ((fuel' & E) & Rg & Dl).
  rewrite E, (read_loop_step _ _ _ _ C), (loop_body_wait_failed _ _ _ W).
  cbn zeta.
  split; [exact Rg|]. split; [exact Dl|].
  split; intros Err.
  - apply Z.eqb_eq in Err. rewrite Err. reflexivity.
  - apply Z.eqb_neq in Err. rewrite Err. split; reflexivity.
Qed.

Lemma failed_wait_interrupted_or_error_witness :
  fst (fst (uart_read_bytes 5 1 4 four_blanks 1000 (bus1_world then_signal)))
  = Some 2.
Proof.
  assert (R : in_range 1) by (unfold in_range, MIN_BUS, MAX_BUS; lia).
  assert (B : 1 <= 4 <= INT_MAX) by (unfold INT_MAX; lia).
  assert (I : is_initialized (bus1_world then_signal) 1)
    by (vm_compute; discriminate).
  assert (F : (1 < 5)%nat) by lia.
  pose proof (failed_wait_interrupted_or_error 1 4 four_blanks 1000
                (bus1_world then_signal)
                (snd (passes 1 1 (read_entry 4 four_blanks 1000)
                        (bus1_world then_signal)))
                1 5 after_two_bytes R B I eq_refl eq_refl eq_refl F) as H.
  cbn zeta in H.
  destruct H as (_ & _ & H & _).
  rewrite (H eq_refl). reflexivity.
Defined.

(** C3.  Take a valid call that stands at the loop condition after [k]
    passes, with the loop going on, and let the wait time out ([select]
    returns 0).  The call returns right after that wait, and what it
    returns is [bytes_read], the number of bytes delivered since entry: a
    count between 0 and the request, never -1, and 0 when nothing had been
    delivered. *)
Theorem timeout_returns_bytes_read
        (bus bytes : Z) (dest : list Byte.byte) (timeout_ms : Z) (w wk : world)
        (k fuel : nat) (st : locals) :
  in_range bus -> 1 <= bytes <= INT_MAX -> is_initialized w bus ->
  passes k bus (read_entry bytes dest timeout_ms) w = (Some st, wk) ->
  fst (loop_condition st wk) = true ->
  fst (fst (wait_readable bus st wk)) = 0 ->
  (k < fuel)%nat ->
  let run := uart_read_bytes fuel bus bytes dest timeout_ms w in
  run = (Some (bytes_read st), buf st, snd (wait_readable bus st wk))
  /\ 0 <= bytes_read st <= bytes
  /\ bytes_read st = bytes_delivered (calls_since w wk)
  /\ (bytes_delivered (calls_since w wk) = 0 -> fst (fst run) = Some 0).
Proof.
  intros R B I P C W F. cbn zeta.
  destruct (uart_read_bytes_reaches bus bytes dest timeout_ms w wk k fuel st
              R B I P F) as ((fuel' & E) & Rg & Dl).
  rewrite E, (read_loop_step _ _ _ _ C), (loop_body_timeout _ _ _ W).
  split; [reflexivity|]. split; [exact Rg|]. split; [exact Dl|].
  intros Z0. cbn. rewrite Dl, Z0. reflexivity.
Qed.

Lemma timeout_returns_bytes_read_witness :
  fst (fst (uart_read_bytes 5 1 4 four_blanks 1000 (bus1_world then_silence)))
  = Some 2.
Proof.
  assert (R : in_range 1) by (unfold in_range, MIN_BUS, MAX_BUS; lia).
  assert (B : 1 <= 4 <= INT_MAX) by (unfold INT_MAX; lia).
  assert (I : is_initialized (bus1_world then_silence) 1)
    by (vm_compute; discriminate).
  assert (F : (1 < 5)%nat) by lia.
  pose proof (timeout_returns_bytes_read 1 4 four_blanks 1000
                (bus1_world then_silence)
                (snd (passes 1 1 (read_entry 4 four_blanks 1000)
                        (bus1_world then_silence)))
                1 5 after_two_bytes R B I eq_refl eq_refl eq_refl F) as H.
  cbn zeta in H. destruct H as (H & _).
  rewrite H. reflexivity.
Defined.

(** C4.  Take a valid call that stands at the loop condition after [k]
    passes and finds the flow state EXITING there.  The call returns at
    once, with no further system call, and what it returns is [bytes_read],
    the number of bytes delivered since entry: a count between 0 and the
    request, never -1. *)
Theorem exiting_returns_bytes_read
        (bus bytes : Z) (dest : list Byte.byte) (timeout_ms : Z) (w wk : world)
        (k fuel : nat) (st : locals) :
  in_range bus -> 1 <= bytes <= INT_MAX -> is_initialized w bus ->
  passes k bus (read_entry bytes dest timeout_ms) w = (Some st, wk) ->
  fst (get_state wk) = EXITING ->
  (k < fuel)%nat ->
  uart_read_bytes fuel bus bytes dest timeout_ms w
  = (Some (bytes_read st), buf st, wk)
  /\ 0 <= bytes_read st <= bytes
  /\ bytes_read st = bytes_delivered (calls_since w wk).
Proof.
  intros R B I P X F.
  destruct (uart_read_bytes_reaches bus bytes dest timeout_ms w wk k fuel st
              R B I P F) as ((fuel' & E) & Rg & Dl).
  split; [|split; assumption].
  rewrite E. cbn [read_loop]. unfold bind at 1.
  rewrite loop_condition_eq, X, andb_false_r. reflexivity.
Qed.

Lemma exiting_returns_bytes_read_witness :
  fst (fst (uart_read_bytes 5 1 4 four_blanks 1000 (bus1_world then_exit)))
  = Some 2.
Proof.
  assert (R : in_range 1) by (unfold in_range, MIN_BUS, MAX_BUS; lia).
  assert (B : 1 <= 4 <= INT_MAX) by (unfold INT_MAX; lia).
  assert (I : is_initialized (bus1_world then_exit) 1)
    by (vm_compute; discriminate).
  assert (F : (1 < 5)%nat) by lia.
  pose proof (exiting_returns_bytes_read 1 4 four_blanks 1000
                (bus1_world then_exit)
                (snd (passes 1 1 (read_entry 4 four_blanks 1000)
                        (bus1_world then_exit)))
                1 5 after_two_bytes R B I eq_refl eq_refl F) as H.
  destruct H as (H & _).
  rewrite H. reflexivity.
Defined.

(** C10.  On a bus in range that is initialized, with [bytes >= 1], a call
    that finds the flow state EXITING at entry returns 0 and leaves the
    destination buffer and the whole world as they were: no [select], no
    [read], no other system call. *)
Theorem exiting_at_entry_returns_zero
        (fuel : nat) (bus bytes : Z) (dest : list Byte.byte) (timeout_ms : Z)
        (w : world) :
  in_range bus -> 1 <= bytes -> is_initialized w bus ->
  fst (get_state w) = EXITING ->
  uart_read_bytes (S fuel) bus bytes dest timeout_ms w = (Some 0, dest, w)
  /\ no_wait_or_read
       (calls_since w (snd (uart_read_bytes (S fuel) bus bytes dest timeout_ms w)))
     = true.
Proof.
  intros R B I X.
  assert (E : uart_read_bytes (S fuel) bus bytes dest timeout_ms w
              = (Some 0, dest, w)).
  { rewrite uart_read_bytes_valid by assumption.
    cbn [read_loop]. unfold bind at 1.
    rewrite loop_condition_eq, X, andb_false_r. reflexivity. }
  split; [exact E|].
  rewrite E. cbn [snd]. rewrite (calls_since_app w w []); [reflexivity|].
  rewrite app_nil_r. reflexivity.
Qed.

Lemma exiting_at_entry_returns_zero_witness :
  uart_read_bytes 1 1 4 four_blanks 1000 (bus1_world exiting)
  = (Some 0, four_blanks, bus1_world exiting).
Proof.
  assert (R : in_range 1) by (unfold in_range, MIN_BUS, MAX_BUS; lia).
  assert (B : 1 <= 4) by lia.
  assert (I : is_initialized (bus1_world exiting) 1)
    by (vm_compute; discriminate).
  exact (proj1 (exiting_at_entry_returns_zero 0 1 4 four_blanks 1000
                  (bus1_world exiting) R B I eq_refl)).
Defined.

(** ** The invariant of a bus slot *)

(** The handle of a slot is not touched by the transfer functions, nor is
    the kernel's table. *)
Lemma close_uart_slot_invariant (bus : Z) (w : world) :
  slot_invariant w bus -> slot_invariant (snd (close_uart bus w)) bus.
Proof.
  intros Inv. unfold close_uart.
  destruct (bus_out_of_range bus); [exact Inv|].
  unfold bind at 1. unfold get_initialized.
  destruct (array_get (initialized w) bus =? 0); [exact Inv|].
  unfold slot_invariant, handle_valid, is_initialized.
  unfold bind, get_fd, sys_close, set_initialized, ret, log.
  cbn [snd fst initialized fd open_fds].
  rewrite array_get_set_zero. split.
  - intros H. apply remove_In in H. contradiction.
  - intros H. contradiction H. reflexivity.
Qed.

Lemma slot_invariant_kept (w w' : world) (bus : Z) :
  keeps_slots w w' -> slot_invariant w bus -> slot_invariant w' bus.
Proof.
  unfold keeps_slots, slot_invariant, handle_valid, is_initialized.
  intros (-> & -> & ->) H. exact H.
Qed.

Lemma keeps_slots_refl (w : world) : keeps_slots w w.
Proof. repeat split. Qed.

Lemma keeps_slots_trans (w1 w2 w3 : world) :
  keeps_slots w1 w2 -> keeps_slots w2 w3 -> keeps_slots w1 w3.
Proof.
  unfold keeps_slots. intros (A & B & C) (D & E & F).
  repeat split; congruence.
Qed.

Lemma get_uart_fd_keeps_slots (bus : Z) (w : world) :
  keeps_slots w (snd (get_uart_fd bus w)).
Proof.
  unfold get_uart_fd. destruct (bus_out_of_range bus); [repeat split|].
  unfold bind, get_initialized.
  destruct (array_get (initialized w) bus =? 0); repeat split.
Qed.

Lemma flush_uart_keeps_slots (bus : Z) (w : world) :
  keeps_slots w (snd (flush_uart bus w)).
Proof.
  unfold flush_uart. destruct (bus_out_of_range bus); [repeat split|].
  unfold bind, get_initialized.
  destruct (array_get (initialized w) bus =? 0); repeat split.
Qed.

Lemma uart_send_bytes_keeps_slots (bus bytes : Z) (data : list Byte.byte) (w : world) :
  keeps_slots w (snd (uart_send_bytes bus bytes data w)).
Proof.
  unfold uart_send_bytes. destruct (bus_out_of_range bus); [repeat split|].
  destruct (bytes <? 1); [repeat split|].
  unfold bind, get_initialized.
  destruct (array_get (initialized w) bus =? 0); repeat split.
Qed.

Lemma uart_send_byte_keeps_slots (bus : Z) (data : Byte.byte) (w : world) :
  keeps_slots w (snd (uart_send_byte bus data w)).
Proof.
  unfold uart_send_byte. destruct (bus_out_of_range bus); [repeat split|].
  unfold bind, get_initialized.
  destruct (array_get (initialized w) bus =? 0); repeat split.
Qed.

Lemma read_loop_keeps_slots (fuel : nat) (bus : Z) :
  forall (st : locals) (w : world), keeps_slots w (snd (read_loop fuel bus st w)).
Proof.
  induction fuel as [|fuel IH]; intros st w; [repeat split|].
  cbn [read_loop]. unfold bind at 1. rewrite loop_condition_eq.
  destruct ((bytes_left st >? 0) && negb (state_eqb (fst (get_state w)) EXITING));
    [|repeat split].
  unfold bind.
  destruct (loop_body_cases bus st w)
    as (r & tv' & t & err & n & data & _ & _ & _ & C).
  cbn zeta in C.
  destruct C as [(_ & _ & E)|[(_ & _ & E)|[(_ & E)|[(_ & _ & E)|(_ & _ & _ & E)]]]];
    rewrite E; try (solve [repeat split]).
  eapply keeps_slots_trans; [|apply IH]. repeat split.
Qed.

Lemma uart_read_bytes_keeps_slots (fuel : nat) (bus bytes : Z) (dest : list Byte.byte)
                                  (timeout_ms : Z) (w : world) :
  keeps_slots w (snd (uart_read_bytes fuel bus bytes dest timeout_ms w)).
Proof.
  unfold uart_read_bytes. destruct (bus_out_of_range bus); [repeat split|].
  destruct (bytes <? 1); [repeat split|].
  unfold bind, get_initialized.
  destruct (array_get (initialized w) bus =? 0); [repeat split|].
  apply read_loop_keeps_slots.
Qed.

Lemma list_set_nth_same (a : list Z) (n : nat) (v : Z) :
  (n < List.length a)%nat -> nth n (list_set a n v) 0 = v.
Proof.
  revert n. induction a as [|h t IH]; intros [|n] L; cbn in *; try lia.
  apply IH. lia.
Qed.

Lemma list_set_length (a : list Z) (n : nat) (v : Z) :
  List.length (list_set a n v) = List.length a.
Proof.
  revert n. induction a as [|h t IH]; intros [|n]; cbn; auto.
Qed.

Lemma array_get_set_same (a : list Z) (i v : Z) :
  List.length a = 6%nat -> in_range i -> array_get (array_set a i v) i = v.
Proof.
  unfold in_range, MIN_BUS, MAX_BUS. intros L R.
  apply list_set_nth_same. lia.
Qed.

Lemma close_uart_six_slots (bus : Z) (w : world) :
  six_slots w -> six_slots (snd (close_uart bus w)).
Proof.
  unfold six_slots, close_uart. intros [A B].
  destruct (bus_out_of_range bus); [split; assumption|].
  unfold bind, get_initialized.
  destruct (array_get (initialized w) bus =? 0); [split; assumption|].
  cbn. unfold array_set. rewrite list_set_length. split; assumption.
Qed.

(** When [initialize_uart] succeeds the slot holds an open descriptor and
    is marked initialized. *)
Lemma initialize_uart_success (bus baudrate : Z) (w : world) :
  in_range bus -> six_slots w ->
  fst (initialize_uart bus baudrate w) = 0 ->
  handle_valid (snd (initialize_uart bus baudrate w)) bus
  /\ is_initialized (snd (initialize_uart bus baudrate w)) bus.
Proof.
  intros R S.
  destruct (initialize_uart bus baudrate w) as [z w'] eqn:E. cbn [fst snd].
  intros ->. revert E. unfold initialize_uart.
  rewrite (bus_out_of_range_false bus R).
  destruct (speed_of_baudrate baudrate) as [speed|]; [|discriminate].
  unfold bind at 1.
  pose proof (close_uart_six_slots bus w S) as S0.
  destruct (close_uart bus w) as [c w0]. cbn [snd] in S0. destruct S0 as [Li Lf].
  unfold bind at 1. unfold sys_open at 1.
  set (r := result (next_reply w0)).
  unfold bind at 1. unfold set_fd at 1.
  destruct (r <? 0) eqn:Er; [discriminate|].
  cbn [cfsetispeed cfsetospeed Z.ltb Z.compare].
  unfold bind at 1. unfold get_fd at 1.
  unfold bind at 1. unfold sys_tcsetattr at 1.
  match goal with
  | |- context [if ?c then _ else _] => destruct c; [discriminate|]
  end.
  unfold bind at 1. unfold set_initialized at 1.
  unfold bind.
  match goal with
  | |- context [flush_uart bus ?v] =>
      destruct (flush_uart_keeps_slots bus v) as (Ki & Kf & Ko);
      destruct (flush_uart bus v) as [x w3]
  end.
  intros E. injection E as <-.
  unfold handle_valid, is_initialized.
  cbn [snd] in *. rewrite Ki, Kf, Ko. cbn [initialized fd open_fds log].
  rewrite !array_get_set_same by assumption.
  split; [left; reflexivity|lia].
Qed.

(** C5.  The slot invariant does not survive a failed configuration: in a
    fresh process, [initialize_uart(1, 115200)] on a device that opens (on
    descriptor 3) and then refuses its attributes returns -1 with the
    descriptor stored in [fd[1]] and still open, while [initialized[1]] is
    0.  [close_uart(1)] then finds the slot not initialized and leaves the
    descriptor open. *)
Theorem failed_configuration_leaves_handle_open :
  let w := fresh_world config_fails in
  let w' := snd (initialize_uart 1 115200 w) in
  (forall bus, slot_invariant w bus)
  /\ fst (initialize_uart 1 115200 w) = -1
  /\ array_get (fd w') 1 = 3
  /\ handle_valid w' 1
  /\ ~ is_initialized w' 1
  /\ ~ slot_invariant w' 1
  /\ close_uart 1 w' = (0, w').
Proof.
  cbn zeta.
  assert (V : handle_valid (snd (initialize_uart 1 115200 (fresh_world config_fails))) 1)
    by (vm_compute; auto).
  assert (N : ~ is_initialized
                (snd (initialize_uart 1 115200 (fresh_world config_fails))) 1)
    by (vm_compute; intros H; apply H; reflexivity).
  split.
  { intros bus. unfold slot_invariant, handle_valid, is_initialized. cbn.
    split; [contradiction|].
    intros H. exfalso. apply H. unfold array_get.
    destruct (Z.to_nat bus) as [|[|[|[|[|[|[|n]]]]]]]; reflexivity. }
  split; [reflexivity|]. split; [reflexivity|].
  split; [exact V|]. split; [exact N|].
  split; [|reflexivity].
  unfold slot_invariant. intros [H _]. exact (N (H V)).
Qed.

(** ** Runs *)

Example initialize_uart_run :
  let r := initialize_uart 1 115200 (fresh_world device_ok) in
  fst r = 0
  /\ initialized (snd r) = [0; 1; 0; 0; 0; 0]
  /\ fd (snd r) = [0; 3; 0; 0; 0; 0]
  /\ open_fds (snd r) = [3]
  /\ trace (snd r)
     = [Sys_open "/dev/ttyO1" 258 3;
        Sys_tcsetattr 3 TCSAFLUSH (mk_termios 0 0 2224 0 0 1 B115200 B115200) 0;
        Sys_tcflush 3 TCIFLUSH 0].
Proof. cbn zeta. repeat split. Qed.

Example full_read_run :
  fst (uart_read_bytes 5 1 4 four_blanks 1000 (bus1_world two_then_three))
  = (Some 4, [Byte.x61; Byte.x62; Byte.x63; Byte.x64]).
Proof. reflexivity. Qed.

(** With a request of one second, 0.4 s spent in the first wait leave
    0.6 s for the second one. *)
Example partial_read_run :
  let r := uart_read_bytes 5 1 4 four_blanks 1000 (bus1_world then_silence) in
  fst r = (Some 2, [Byte.x61; Byte.x62; Byte.x20; Byte.x20])
  /\ trace (snd r)
     = [Sys_select 4 3 (mk_timeval 1 0) 1 (mk_timeval 0 600000) 400000;
        Sys_read 3 4 2 two_bytes;
        Sys_select 4 3 (mk_timeval 0 600000) 0 (mk_timeval 0 0) 600000]
  /\ time_waited (trace (snd r)) = 1000 * 1000.
Proof. cbn zeta. repeat split. Qed.

(** A device that is readable at once and delivers nothing keeps the loop
    busy without using up the timeout: the bound on the passes is reached. *)
Example busy_loop_run :
  fst (fst (uart_read_bytes 50 1 4 four_blanks 1000 (bus1_world calm))) = None.
Proof. reflexivity. Qed.

(** A negative timeout is refused by [select] and the call returns -1. *)
Example negative_timeout_run :
  let r := uart_read_bytes 5 1 4 four_blanks (-500) (bus1_world calm) in
  fst (fst r) = Some (-1)
  /\ trace (snd r)
     = [Sys_select 4 3 (mk_timeval 0 (-500000)) (-1) (mk_timeval 0 (-500000)) 0].
Proof. cbn zeta. repeat split. Qed.

(** ** A bus that is not initialized *)

Lemma transfers_refused_when (bus : Z) (w : world) :
  bus_out_of_range bus = true \/ ~ is_initialized w bus ->
  transfers_refused bus w.
Proof.
  intros H. unfold transfers_refused, get_uart_fd, flush_uart, uart_send_bytes,
    uart_send_byte, uart_read_bytes.
  destruct (bus_out_of_range bus) eqn:R; [repeat split|].
  destruct H as [H|H]; [discriminate H|].
  apply not_initialized_eqb in H.
  unfold refused, bind, get_initialized. cbn beta.
  split; [rewrite H; repeat split|]. split; [rewrite H; repeat split|].
  split; [intros bytes data; destruct (bytes <? 1); [|rewrite H]; repeat split|].
  split; [intros data; rewrite H; repeat split|].
  intros fuel bytes dest timeout_ms.
  destruct (bytes <? 1); [|rewrite H]; repeat split.
Qed.

Lemma close_uart_not_initialized (bus : Z) (w : world) :
  bus_out_of_range bus = false -> ~ is_initialized (snd (close_uart bus w)) bus.
Proof.
  intros R. unfold close_uart, is_initialized. rewrite R.
  unfold bind, get_initialized.
  destruct (array_get (initialized w) bus =? 0) eqn:E.
  - apply Z.eqb_eq in E. cbn [snd ret]. intros H. apply H. exact E.
  - unfold get_fd, sys_close, set_initialized, ret, log.
    cbn [snd fst initialized]. rewrite array_get_set_zero.
    intros H. apply H. reflexivity.
Qed.

(** X1.  On a bus whose [initialized] flag is 0, [get_uart_fd],
    [flush_uart], [uart_send_bytes], [uart_send_byte] and [uart_read_bytes]
    all return -1; none of them makes a system call or changes the
    registry, and the read leaves its buffer alone. *)
Theorem not_initialized_refused (bus : Z) (w : world) :
  ~ is_initialized w bus -> transfers_refused bus w.
Proof. intros H. apply transfers_refused_when. right. exact H. Qed.

Lemma not_initialized_refused_witness :
  ~ is_initialized (bus1_world calm) 2 /\ transfers_refused 2 (bus1_world calm).
Proof.
  assert (H : ~ is_initialized (bus1_world calm) 2)
    by (intros H; apply H; reflexivity).
  split; [exact H|].
  exact (not_initialized_refused 2 (bus1_world calm) H).
Defined.

(** X2.  After [close_uart(bus)], whatever the bus was before, every
    transfer function on that bus returns -1 without any system call, until
    the bus is initialized again. *)
Theorem closed_bus_refuses_transfers (bus : Z) (w : world) :
  transfers_refused bus (snd (close_uart bus w)).
Proof.
  apply transfers_refused_when.
  destruct (bus_out_of_range bus) eqn:R; [left; reflexivity|].
  right. apply close_uart_not_initialized. exact R.
Qed.

(** ** Sending *)

(** X7.  [uart_send_byte(bus, c)] does what [uart_send_bytes(bus, 1, data)]
    does for any [data] that starts with [c]: the same result, the same
    messages, the same [write]. *)
Theorem uart_send_byte_is_send_bytes
        (bus : Z) (c : Byte.byte) (rest : list Byte.byte) (w : world) :
  uart_send_byte bus c w = uart_send_bytes bus 1 (c :: rest) w.
Proof.
  unfold uart_send_byte, uart_send_bytes.
  destruct (bus_out_of_range bus); [reflexivity|].
  cbn [Z.ltb Z.compare Pos.compare Pos.compare_cont].
  unfold bind, get_initialized.
  destruct (array_get (initialized w) bus =? 0); reflexivity.
Qed.

(** ** The timeout structure at entry *)

(** X14.  The structure filled in from [timeout_ms] holds exactly
    [timeout_ms] milliseconds.  For a request that is not negative it is
    normalised (seconds not negative, microseconds in 0..999999); for a
    negative request one of its two fields is negative. *)
Theorem timeval_of_ms_exact (timeout_ms : Z) :
  tv_to_usec (timeval_of_ms timeout_ms) = 1000 * timeout_ms
  /\ (0 <= timeout_ms ->
      tv_sec (timeval_of_ms timeout_ms) = timeout_ms / 1000
      /\ tv_usec (timeval_of_ms timeout_ms) = (timeout_ms mod 1000) * 1000
      /\ 0 <= tv_usec (timeval_of_ms timeout_ms) < 1000000)
  /\ (timeout_ms < 0 ->
      tv_sec (timeval_of_ms timeout_ms) < 0
      \/ tv_usec (timeval_of_ms timeout_ms) < 0).
Proof.
  split; [apply tv_to_usec_of_ms|]. split.
  - intros H. unfold timeval_of_ms. cbn [tv_sec tv_usec].
    rewrite Z.quot_div_nonneg, Z.rem_mod_nonneg by lia.
    pose proof (Z.mod_pos_bound timeout_ms 1000 ltac:(lia)).
    repeat split; lia.
  - intros H. pose proof (tv_to_usec_of_ms timeout_ms) as E.
    unfold tv_to_usec in E.
    destruct (Z_lt_dec (tv_sec (timeval_of_ms timeout_ms)) 0); [left; assumption|].
    right. lia.
Qed.

Lemma timeval_of_ms_exact_witness :
  timeval_of_ms 1500 = mk_timeval 1 500000
  /\ 0 <= tv_usec (timeval_of_ms 1500) < 1000000.
Proof.
  assert (H : 0 <= 1500) by lia.
  split; [reflexivity|].
  exact (proj2 (proj2 (proj1 (proj2 (timeval_of_ms_exact 1500)) H))).
Defined.

(** ** What the transfer functions leave alone *)

(** X16.  [get_uart_fd], [flush_uart], [uart_send_bytes], [uart_send_byte]
    and [uart_read_bytes] never change an [initialized] flag or a stored
    descriptor and never open or close a descriptor. *)
Theorem transfers_keep_registry (bus : Z) (w : world) :
  keeps_slots w (snd (get_uart_fd bus w))
  /\ keeps_slots w (snd (flush_uart bus w))
  /\ (forall bytes data, keeps_slots w (snd (uart_send_bytes bus bytes data w)))
  /\ (forall data, keeps_slots w (snd (uart_send_byte bus data w)))
  /\ (forall fuel bytes dest timeout_ms,
        keeps_slots w (snd (uart_read_bytes fuel bus bytes dest timeout_ms w))).
Proof.
  split; [apply get_uart_fd_keeps_slots|].
  split; [apply flush_uart_keeps_slots|].
  split; [intros; apply uart_send_bytes_keeps_slots|].
  split; [intros; apply uart_send_byte_keeps_slots|].
  intros; apply uart_read_bytes_keeps_slots.
Qed.

(** ** initialize_uart on valid arguments *)

Lemma then_ret_snd {A B : Type} (p : A * world) (b : B) :
  (let (_, w') := p in ret b w') = (b, snd p).
Proof. destruct p. reflexivity. Qed.

(** [initialize_uart] once the arguments are accepted: the open fails, the
    attributes are refused, or all goes well. *)
Lemma initialize_uart_eq (bus baudrate : Z) (speed : speed_t) (w : world) :
  bus_out_of_range bus = false ->
  speed_of_baudrate baudrate = Some speed ->
  initialize_uart bus baudrate w
  = let w0 := snd (close_uart bus w) in
    let r := result (next_reply w0) in
    let w1 := snd (set_fd bus r
                     (snd (sys_open (nth (Z.to_nat bus) paths "")
                                    (Z.lor O_RDWR O_NOCTTY) w0))) in
    if r <? 0 then
      (-1, snd (printf "device tree overlay probably isn't loaded\n" []
                  (snd (printf "error opening uart%d in /dev/\n" [bus] w1))))
    else
      let r3 := result (next_reply w1) in
      let w2 := snd (sys_tcsetattr (array_get (fd w1) bus) TCSAFLUSH
                                   (raw_8n1 speed) w1) in
      if r3 <? 0 then
        (-1, snd (printf "cannot set uart%d attributes\n" [bus] w2))
      else
        (0, snd (flush_uart bus (snd (set_initialized bus 1 w2)))).
Proof.
  intros R Sp. unfold initialize_uart. rewrite R, Sp.
  unfold bind at 1. destruct (close_uart bus w) as [c w0]. cbn [snd]. cbv zeta.
  unfold bind at 1. unfold sys_open at 1. cbn iota.
  unfold bind at 1. unfold set_fd at 1. cbn iota.
  unfold sys_open, set_fd. cbn [snd].
  destruct (result (next_reply w0) <? 0); [reflexivity|].
  cbn [cfsetispeed cfsetospeed Z.ltb Z.compare c_iflag c_oflag c_cflag c_lflag
       c_cc_VTIME c_cc_VMIN c_ispeed c_ospeed].
  unfold bind at 1. unfold get_fd at 1. cbn iota.
  unfold bind at 1. unfold sys_tcsetattr at 1. cbn iota.
  unfold sys_tcsetattr. cbn [snd].
  match goal with
  | |- context [result (next_reply ?v) <? 0] =>
      destruct (result (next_reply v) <? 0); [reflexivity|]
  end.
  unfold bind at 1. unfold set_initialized at 1. cbn iota.
  unfold bind.
  etransitivity; [apply then_ret_snd|reflexivity].
Qed.

Lemma list_set_nth_other (a : list Z) (n m : nat) (v : Z) :
  n <> m -> nth m (list_set a n v) 0 = nth m a 0.
Proof.
  revert n m. induction a as [|h t IH]; intros [|n] [|m] H; cbn;
    try reflexivity.
  - contradiction H. reflexivity.
  - apply IH. lia.
Qed.

Lemma array_get_set_other (a : list Z) (i j v : Z) :
  in_range i -> in_range j -> j <> i ->
  array_get (array_set a i v) j = array_get a j.
Proof.
  unfold in_range, MIN_BUS, MAX_BUS. intros I J N.
  apply list_set_nth_other. lia.
Qed.

Lemma other_slots_kept_same (bus : Z) (w w' : world) :
  initialized w' = initialized w -> fd w' = fd w -> other_slots_kept bus w w'.
Proof. intros A B bus' _ _. rewrite A, B. split; reflexivity. Qed.

Lemma other_slots_kept_trans (bus : Z) (w1 w2 w3 : world) :
  other_slots_kept bus w1 w2 -> other_slots_kept bus w2 w3 ->
  other_slots_kept bus w1 w3.
Proof.
  intros A B bus' R N. destruct (A bus' R N) as [A1 A2].
  destruct (B bus' R N) as [B1 B2]. split; congruence.
Qed.

Lemma close_uart_in_range (bus : Z) (w : world) :
  bus_out_of_range bus = false ->
  close_uart bus w
  = (0, if array_get (initialized w) bus =? 0 then w
        else mk_world (array_set (initialized w) bus 0) (fd w) (errno w)
                      (remove Z.eq_dec (array_get (fd w) bus) (open_fds w))
                      (trace w ++ [Sys_close (array_get (fd w) bus)])
                      (console w) (env w)).
Proof.
  intros R. unfold close_uart. rewrite R. unfold bind, get_initialized.
  destruct (array_get (initialized w) bus =? 0); reflexivity.
Qed.

Lemma close_uart_other_slots (bus : Z) (w : world) :
  other_slots_kept bus w (snd (close_uart bus w)).
Proof.
  destruct (bus_out_of_range bus) eqn:R.
  - unfold close_uart. rewrite R. apply other_slots_kept_same; reflexivity.
  - rewrite close_uart_in_range by exact R. cbn [snd].
    destruct (array_get (initialized w) bus =? 0);
      [apply other_slots_kept_same; reflexivity|].
    intros bus' R' N. cbn [initialized fd]. split; [|reflexivity].
    apply array_get_set_other; [|exact R'|exact N].
    unfold in_range. unfold bus_out_of_range in R.
    apply orb_false_iff in R. destruct R as [R1 R2].
    apply Z.ltb_ge in R1.
    pose proof (Zgt_cases bus MAX_BUS) as Gc. rewrite R2 in Gc. lia.
Qed.

Lemma in_range_of_check (bus : Z) : bus_out_of_range bus = false -> in_range bus.
Proof.
  unfold in_range, bus_out_of_range. intros R.
  apply orb_false_iff in R. destruct R as [R1 R2]. apply Z.ltb_ge in R1.
  pose proof (Zgt_cases bus MAX_BUS) as Gc. rewrite R2 in Gc. lia.
Qed.

(** X17.  [close_uart] on a bus in range that is initialized returns 0
    after exactly one system call, the [close] of the descriptor stored for
    the bus.  The bus is then not initialized, its stored descriptor is no
    longer an open one, the stored descriptors are all as before and the
    flags of the other buses too. *)
Theorem close_uart_closes_stored_handle (bus : Z) (w : world) :
  in_range bus -> is_initialized w bus ->
  let w' := snd (close_uart bus w) in
  fst (close_uart bus w) = 0
  /\ calls_since w w' = [Sys_close (array_get (fd w) bus)]
  /\ open_fds w' = remove Z.eq_dec (array_get (fd w) bus) (open_fds w)
  /\ ~ is_initialized w' bus
  /\ ~ handle_valid w' bus
  /\ fd w' = fd w
  /\ other_slots_kept bus w w'.
Proof.
  intros R I. cbn zeta.
  pose proof (close_uart_other_slots bus w) as O.
  apply bus_out_of_range_false in R.
  pose proof (close_uart_not_initialized bus w R) as N.
  rewrite (close_uart_in_range bus w R) in *.
  rewrite (is_initialized_eqb w bus I) in *. cbn [fst snd] in *.
  split; [reflexivity|].
  split; [apply calls_since_app; reflexivity|].
  split; [reflexivity|]. split; [exact N|].
  split; [|split; [reflexivity|exact O]].
  unfold handle_valid. cbn [fd open_fds]. intros H.
  apply remove_In in H. exact H.
Qed.

Lemma close_uart_closes_stored_handle_witness :
  calls_since (two_bus_world calm) (snd (close_uart 1 (two_bus_world calm)))
  = [Sys_close 3].
Proof.
  assert (R : in_range 1) by (unfold in_range, MIN_BUS, MAX_BUS; lia).
  assert (I : is_initialized (two_bus_world calm) 1)
    by (vm_compute; discriminate).
  exact (proj1 (proj2 (close_uart_closes_stored_handle 1 (two_bus_world calm) R I))).
Defined.

(** X6.  [initialize_uart(bus, ...)] never changes the [initialized] flag
    or the stored descriptor of another bus, whether it succeeds or fails. *)
Theorem initialize_uart_other_slots (bus baudrate : Z) (w : world) :
  other_slots_kept bus w (snd (initialize_uart bus baudrate w)).
Proof.
  destruct (bus_out_of_range bus) eqn:R.
  { unfold initialize_uart. rewrite R. apply other_slots_kept_same; reflexivity. }
  destruct (speed_of_baudrate baudrate) as [speed|] eqn:Sp.
  2:{ unfold initialize_uart. rewrite R, Sp.
      apply other_slots_kept_same; reflexivity. }
  rewrite (initialize_uart_eq bus baudrate speed w R Sp). cbv zeta.
  eapply other_slots_kept_trans; [apply close_uart_other_slots|].
  set (w0 := snd (close_uart bus w)).
  pose proof (in_range_of_check bus R) as Rb.
  assert (F : forall v, other_slots_kept bus w0 v ->
                        other_slots_kept bus w0 (snd (flush_uart bus v))).
  { intros v H. eapply other_slots_kept_trans; [exact H|].
    destruct (flush_uart_keeps_slots bus v) as (A & B & _).
    apply other_slots_kept_same; assumption. }
  destruct (result (next_reply w0) <? 0).
  - intros bus' R' N. cbn. split; [reflexivity|].
    apply array_get_set_other; assumption.
  - match goal with
    | |- context [if ?c then _ else _] => destruct c
    end.
    + intros bus' R' N. cbn. split; [reflexivity|].
      apply array_get_set_other; assumption.
    + cbn [snd]. apply F. intros bus' R' N. cbn.
      split; apply array_get_set_other; assumption.
Qed.

Ltac world_fields :=
  unfold log; cbn [fst snd initialized fd errno open_fds trace console env].

(** The world a successful [initialize_uart] leaves, from the world [w0]
    that its [close_uart] left. *)
Lemma initialize_uart_success_world (bus baudrate : Z) (speed : speed_t) (w : world) :
  in_range bus -> six_slots w ->
  speed_of_baudrate baudrate = Some speed ->
  fst (initialize_uart bus baudrate w) = 0 ->
  let w0 := snd (close_uart bus w) in
  let d := result (next_reply w0) in
  exists r3 r4,
    0 <= d /\ 0 <= r3
    /\ snd (initialize_uart bus baudrate w)
       = mk_world (array_set (initialized w0) bus 1) (array_set (fd w0) bus d)
                  (errno w0) (d :: open_fds w0)
                  (trace w0
                   ++ [Sys_open (nth (Z.to_nat bus) paths "")
                                (Z.lor O_RDWR O_NOCTTY) d;
                       Sys_tcsetattr d TCSAFLUSH (raw_8n1 speed) r3;
                       Sys_tcflush d TCIFLUSH r4])
                  (console w0) (env w0).
Proof.
  intros R S Sp. cbn zeta.
  pose proof (bus_out_of_range_false bus R) as Rc.
  rewrite (initialize_uart_eq bus baudrate speed w Rc Sp). cbv zeta.
  destruct (close_uart_six_slots bus w S) as [Li Lf].
  set (w0 := snd (close_uart bus w)) in *.
  set (d := result (next_reply w0)).
  destruct (d <? 0) eqn:Ed; [discriminate|].
  apply Z.ltb_ge in Ed.
  unfold sys_open, set_fd. cbn [snd]. fold d.
  assert (Ed' : (d <? 0) = false) by (apply Z.ltb_ge; exact Ed). rewrite Ed'.
  world_fields. rewrite (array_get_set_same (fd w0) bus d Lf R).
  unfold sys_tcsetattr. cbn [snd].
  match goal with
  | |- context [result (next_reply ?v) <? 0] =>
      set (r3 := result (next_reply v)); destruct (r3 <? 0) eqn:E3;
        [discriminate|]
  end.
  apply Z.ltb_ge in E3. intros _.
  unfold set_initialized. world_fields.
  unfold flush_uart. rewrite Rc. unfold bind, get_initialized, get_fd.
  world_fields.
  rewrite (array_get_set_same (initialized w0) bus 1 Li R).
  try rewrite (array_get_set_same (fd w0) bus d Lf R).
  cbn [Z.eqb]. unfold sys_tcflush.
  eexists r3, _. split; [exact Ed|]. split; [exact E3|].
  world_fields. rewrite ?(array_get_set_same (fd w0) bus d Lf R).
  rewrite <- !app_assoc. reflexivity.
Qed.

(** X3.  After an [initialize_uart] that returned 0 (in a process whose
    tables have their six entries), [get_uart_fd] on the same bus returns
    the descriptor that [open] gave for the device of that bus, a
    descriptor that is not negative and is open, without any effect. *)
Theorem initialize_then_get_uart_fd (bus baudrate : Z) (w : world) :
  in_range bus -> six_slots w ->
  fst (initialize_uart bus baudrate w) = 0 ->
  let w' := snd (initialize_uart bus baudrate w) in
  exists d,
    get_uart_fd bus w' = (d, w')
    /\ 0 <= d
    /\ In d (open_fds w')
    /\ In (Sys_open (nth (Z.to_nat bus) paths "") (Z.lor O_RDWR O_NOCTTY) d)
          (calls_since w w').
Proof.
  intros R S Z0. cbn zeta.
  destruct (speed_of_baudrate baudrate) as [speed|] eqn:Sp.
  2:{ unfold initialize_uart in Z0.
      rewrite (bus_out_of_range_false bus R), Sp in Z0. discriminate Z0. }
  destruct (initialize_uart_success_world bus baudrate speed w R S Sp Z0)
    as (r3 & r4 & D & _ & E).
  cbn zeta in E. rewrite E.
  destruct (close_uart_six_slots bus w S) as [Li Lf].
  pose proof (bus_out_of_range_false bus R) as Rc.
  exists (result (next_reply (snd (close_uart bus w)))).
  split.
  { unfold get_uart_fd. rewrite Rc. unfold bind, get_initialized.
    cbn [initialized fd].
    rewrite (array_get_set_same _ bus 1 Li R). cbn [Z.eqb].
    unfold get_fd. cbn [fd].
    rewrite (array_get_set_same _ bus _ Lf R). reflexivity. }
  split; [exact D|]. split; [left; reflexivity|].
  rewrite (close_uart_in_range bus w Rc). cbn [snd].
  destruct (array_get (initialized w) bus =? 0).
  - erewrite calls_since_app; [|cbn [trace]; reflexivity].
    left. reflexivity.
  - erewrite calls_since_app; [|cbn [trace]; rewrite <- app_assoc; reflexivity].
    right. left. reflexivity.
Qed.

Lemma initialize_then_get_uart_fd_witness :
  fst (initialize_uart 1 115200 (fresh_world device_ok)) = 0
  /\ exists d,
       get_uart_fd 1 (snd (initialize_uart 1 115200 (fresh_world device_ok)))
       = (d, snd (initialize_uart 1 115200 (fresh_world device_ok)))
       /\ 0 <= d.
Proof.
  assert (R : in_range 1) by (unfold in_range, MIN_BUS, MAX_BUS; lia).
  assert (S : six_slots (fresh_world device_ok)) by (split; reflexivity).
  split; [reflexivity|].
  destruct (initialize_then_get_uart_fd 1 115200 (fresh_world device_ok) R S eq_refl)
    as (d & E & D & _).
  exists d. split; [exact E|exact D].
Defined.

(** X4.  For a bus in range and an accepted baud rate (in a process whose
    tables have their six entries) [initialize_uart] returns 0 or -1, and
    the result tells the state of the bus: after 0 the bus is initialized
    on an open descriptor; after -1 the bus is not initialized, even if it
    was before the call. *)
Theorem initialize_uart_result_tells (bus baudrate : Z) (w : world) :
  in_range bus -> six_slots w -> In baudrate accepted_baudrates ->
  let w' := snd (initialize_uart bus baudrate w) in
  (fst (initialize_uart bus baudrate w) = 0
   /\ is_initialized w' bus /\ handle_valid w' bus)
  \/ (fst (initialize_uart bus baudrate w) = -1 /\ ~ is_initialized w' bus).
Proof.
  intros R S A. cbn zeta.
  destruct (speed_of_baudrate baudrate) as [speed|] eqn:Sp;
    [|contradiction (speed_of_baudrate_accepted baudrate A Sp)].
  pose proof (bus_out_of_range_false bus R) as Rc.
  pose proof (close_uart_not_initialized bus w Rc) as N.
  pose proof (initialize_uart_eq bus baudrate speed w Rc Sp) as E.
  cbv zeta in E.
  destruct (result (next_reply (snd (close_uart bus w))) <? 0).
  { right. rewrite E. split; [reflexivity|]. exact N. }
  match type of E with
  | context [if ?c then _ else _] => destruct c
  end.
  { right. rewrite E. split; [reflexivity|]. exact N. }
  left.
  assert (Z0 : fst (initialize_uart bus baudrate w) = 0) by (rewrite E; reflexivity).
  destruct (initialize_uart_success bus baudrate w R S Z0) as [V I].
  split; [exact Z0|]. split; assumption.
Qed.

Lemma initialize_uart_result_tells_witness :
  fst (initialize_uart 1 115200 (bus1_world config_fails)) = -1
  /\ ~ is_initialized (snd (initialize_uart 1 115200 (bus1_world config_fails))) 1.
Proof.
  assert (R : in_range 1) by (unfold in_range, MIN_BUS, MAX_BUS; lia).
  assert (S : six_slots (bus1_world config_fails)) by (split; reflexivity).
  assert (A : In 115200 accepted_baudrates) by (cbn; tauto).
  destruct (initialize_uart_result_tells 1 115200 (bus1_world config_fails) R S A)
    as [[Z0 _]|H].
  - discriminate Z0.
  - exact H.
Defined.



(** ** The log and the buffer of uart_read_bytes *)

Lemma store_nil (base : list Byte.byte) (off : Z) : store base off [] = base.
Proof.
  unfold store. cbn [List.length app]. rewrite Nat.add_0_r.
  apply firstn_skipn.
Qed.

Lemma store_length (base : list Byte.byte) (off : Z) (data : list Byte.byte) :
  (Z.to_nat off <= List.length base)%nat ->
  List.length (store base off data)
  = Nat.max (List.length base) (Z.to_nat off + List.length data).
Proof.
  intros H. unfold store.
  rewrite !length_app, length_firstn, length_skipn. lia.
Qed.

(** Two stores one after the other are the store of the two pieces. *)
Lemma store_store (base : list Byte.byte) (off : Z) (d1 d2 : list Byte.byte) :
  0 <= off -> (Z.to_nat off <= List.length base)%nat ->
  store (store base off d1) (off + Z.of_nat (List.length d1)) d2
  = store base off (d1 ++ d2).
Proof.
  intros O L. unfold store.
  replace (Z.to_nat (off + Z.of_nat (List.length d1)))
    with (Z.to_nat off + List.length d1)%nat by lia.
  set (o := Z.to_nat off) in *.
  assert (Lo : List.length (firstn o base) = o)
    by (rewrite length_firstn; lia).
  rewrite firstn_app, Lo.
  rewrite (firstn_all2 (firstn o base)) by lia.
  replace (o + List.length d1 - o)%nat with (List.length d1) by lia.
  rewrite firstn_app, firstn_all, Nat.sub_diag. cbn [firstn].
  rewrite app_nil_r.
  rewrite skipn_app, Lo.
  rewrite (skipn_all2 (firstn o base)) by lia.
  replace (o + List.length d1 + List.length d2 - o)%nat
    with (List.length d1 + List.length d2)%nat by lia.
  rewrite skipn_app.
  rewrite (skipn_all2 d1) by lia.
  replace (List.length d1 + List.length d2 - List.length d1)%nat
    with (List.length d2) by lia.
  rewrite skipn_skipn. cbn [app].
  rewrite length_app, <- !app_assoc.
  replace (List.length d2 + (o + List.length d1))%nat
    with (o + (List.length d1 + List.length d2))%nat by lia.
  reflexivity.
Qed.

(** A [read] either fails, delivering nothing, or delivers the first
    [count] of the bytes that wait. *)
Lemma sys_read_cases (d count : Z) (w : world) :
  (result (next_reply w) < 0
   /\ sys_read d count w
      = (result (next_reply w), [],
         log (Sys_read d count (result (next_reply w)) [])
             (open_fds w) (errno w) w))
  \/ (0 <= result (next_reply w)
      /\ sys_read d count w
         = (Z.of_nat (List.length (firstn (Z.to_nat count) (incoming (next_reply w)))),
            firstn (Z.to_nat count) (incoming (next_reply w)),
            log (Sys_read d count
                   (Z.of_nat (List.length
                                (firstn (Z.to_nat count) (incoming (next_reply w)))))
                   (firstn (Z.to_nat count) (incoming (next_reply w))))
                (open_fds w) (errno w) w)).
Proof.
  unfold sys_read. destruct (result (next_reply w) <? 0) eqn:E.
  - left. apply Z.ltb_lt in E. split; [exact E|reflexivity].
  - right. apply Z.ltb_ge in E. split; [exact E|reflexivity].
Qed.

(** The body after a wait that reported the descriptor readable. *)
Lemma loop_body_after_wait (bus : Z) (st : locals) (w w1 : world) (tv' : timeval) :
  wait_readable bus st w = (1, tv', w1) ->
  loop_body bus st w
  = let rd := sys_read (array_get (fd w1) bus) (bytes_left st) w1 in
    let n := fst (fst rd) in
    if n <? 0 then
      (Return (-1) (buf st),
       snd (printf "ERROR: uart read() returned %d\n" [n] (snd rd)))
    else
      (Continue (if n >? 0
                 then mk_locals (wrap_int (bytes_read st + n))
                                (wrap_int (bytes_left st - n)) tv'
                                (store (buf st) (bytes_read st) (snd (fst rd)))
                 else mk_locals (bytes_read st) (bytes_left st) tv' (buf st)),
       snd rd).
Proof.
  intros W. unfold loop_body. unfold bind at 1. rewrite W.
  cbn [Z.eqb Pos.eqb]. unfold bind at 1. unfold get_fd at 1. cbn iota.
  unfold bind at 1. cbv zeta.
  destruct (sys_read (array_get (fd w1) bus) (bytes_left st) w1) as [[n data] w2].
  cbn [fst snd]. destruct (n <? 0); [reflexivity|].
  destruct (n >? 0); reflexivity.
Qed.

Ltac split5 := split; [|split; [|split; [|split]]].
Ltac split6 := split; [|split5].

Lemma locals_after_read (n a b : Z) (tv' : timeval) (m data : list Byte.byte) :
  0 <= n <= b -> n = Z.of_nat (List.length data) ->
  0 <= a -> a + b <= INT_MAX -> (Z.to_nat a <= List.length m)%nat ->
  let s := if n >? 0
           then mk_locals (wrap_int (a + n)) (wrap_int (b - n)) tv' (store m a data)
           else mk_locals a b tv' m in
  bytes_read s = a + n /\ bytes_left s = b - n /\ buf s = store m a data
  /\ (Z.to_nat (a + n) <= List.length (store m a data))%nat.
Proof.
  intros N Ld A S L.
  destruct (counters_after_read n a b tv' tv' m (store m a data) N A S) as [Cr Cl].
  cbn zeta in *. split; [exact Cr|]. split; [exact Cl|].
  rewrite store_length by exact L.
  split; [|lia].
  destruct (n >? 0) eqn:G; [reflexivity|].
  assert (n = 0) by lia. subst n.
  destruct data; [|discriminate]. rewrite store_nil. reflexivity.
Qed.

(** The log, the buffer and the result of the loop, from any locals within
    the buffer and within [int]. *)
Lemma read_loop_log (fuel : nat) (bus : Z) :
  forall (st : locals) (w w' : world) (res : option Z) (mem : list Byte.byte),
    read_loop fuel bus st w = (res, mem, w') ->
    0 <= bytes_read st -> 0 <= bytes_left st ->
    bytes_read st + bytes_left st <= INT_MAX ->
    (Z.to_nat (bytes_read st) <= List.length (buf st))%nat ->
    exists calls,
      trace w' = trace w ++ calls
      /\ read_protocol (array_get (fd w) bus) (bytes_left st) calls
      /\ 0 <= bytes_delivered calls <= bytes_left st
      /\ bytes_delivered calls = Z.of_nat (List.length (received calls))
      /\ mem = store (buf st) (bytes_read st) (received calls)
      /\ (forall r, res = Some r ->
                    r = -1 \/ r = bytes_read st + bytes_delivered calls).
Proof.
  induction fuel as [|fuel IH]; intros st w w' res mem E A B S L.
  { cbn in E. injection E as <- <- <-.
    exists []. cbn. rewrite app_nil_r, store_nil.
    split6; try reflexivity; try lia. intros r H. discriminate H. }
  cbn [read_loop] in E. unfold bind at 1 in E. rewrite loop_condition_eq in E.
  destruct ((bytes_left st >? 0) && negb (state_eqb (fst (get_state w)) EXITING)).
  2:{ cbn in E. injection E as <- <- <-.
      exists []. cbn. rewrite app_nil_r, store_nil.
      split6; try reflexivity; try lia.
      intros r H. injection H as <-. right. lia. }
  unfold bind in E.
  set (d := array_get (fd w) bus).
  assert (W : wait_readable bus st w = sys_select (wrap_int (d + 1)) d (timeout st) w)
    by reflexivity.
  destruct (sys_select_spec (wrap_int (d + 1)) d (timeout st) w)
    as (r & tv' & t & err & Es & _ & _ & Rr).
  rewrite Es in W.
  destruct Rr as [->|[[->| ->] ->]].
  - rewrite loop_body_wait_failed in E by (rewrite W; reflexivity).
    rewrite W in E. cbn zeta in E. cbn [snd] in E.
    eexists [_].
    destruct (errno _ =? EINTR); cbn in E; injection E as <- <- <-;
      (split; [cbn; reflexivity|]); cbn; rewrite store_nil;
      (split5;
       [repeat split; (reflexivity || discriminate)|lia|reflexivity|reflexivity
       |intros r H; injection H as <-; auto; right; lia]).
  - rewrite loop_body_timeout in E by (rewrite W; reflexivity).
    rewrite W in E. cbn [snd] in E. injection E as <- <- <-.
    eexists [_]. split; [cbn; reflexivity|]. cbn. rewrite store_nil.
    split5;
      [repeat split; (reflexivity || discriminate)|lia|reflexivity|reflexivity|].
    intros r H. injection H as <-. right. lia.
  - rewrite (loop_body_after_wait bus st w _ tv' W) in E. cbv zeta in E.
    change (array_get (fd (log (Sys_select (wrap_int (d + 1)) d (timeout st) 1 tv'
                                  t) (open_fds w) (errno w) w)) bus) with d in E.
    match type of E with
    | context [sys_read d (bytes_left st) ?v] =>
        destruct (sys_read_cases d (bytes_left st) v) as [[Neg Er]|[Pos Er]];
          rewrite Er in E; clear Er; cbn [fst snd] in E
    end.
    + assert (Hn : forall x, x < 0 -> (x <? 0) = true) by (intros; apply Z.ltb_lt; assumption).
      match type of E with
      | context [?x <? 0] => rewrite (Hn x Neg) in E
      end.
      cbn in E. injection E as <- <- <-.
      eexists [_; _].
      split; [cbn; rewrite <- app_assoc; reflexivity|]. cbn. rewrite store_nil.
      split5; [repeat split|lia|lia|reflexivity|].
      intros r H. injection H as <-. left. reflexivity.
    + match type of E with
      | context [firstn ?k ?l] => set (data := firstn k l) in *
      end.
      set (n := Z.of_nat (List.length data)) in *.
      assert (Nb : 0 <= n <= bytes_left st).
      { subst n data. rewrite length_firstn. lia. }
      assert (Hn : (n <? 0) = false) by (apply Z.ltb_ge; lia).
      rewrite Hn in E.
      destruct (locals_after_read n (bytes_read st) (bytes_left st) tv' (buf st)
                  data Nb eq_refl A S L) as (Cr & Cl & Cb & Ln).
      cbn zeta in Cr, Cl, Cb.
      apply IH in E; [|rewrite Cr; lia|rewrite Cl; lia|rewrite Cr, Cl; lia
                      |rewrite Cr, Cb; exact Ln].
      destruct E as (calls & Tr & Pr & Bd & Bl & Bf & Rs).
      rewrite Cr, Cl, Cb in *.
      eexists (_ :: _ :: calls). rewrite Tr, Bf.
      cbn [trace log fd read_protocol bytes_delivered received] in *.
      rewrite <- !app_assoc. cbn [app].
      split; [reflexivity|].
      split; [repeat split; try reflexivity;
              replace (bytes_left st - Z.max 0 n) with (bytes_left st - n) by lia;
              exact Pr|].
      split; [lia|].
      split; [rewrite length_app; lia|].
      split; [apply store_store; [exact A|exact L]|].
      intros r H. destruct (Rs r H) as [-> | ->]; [left; reflexivity|right; lia].
Qed.

Lemma uart_read_bytes_log
      (fuel : nat) (bus bytes : Z) (dest : list Byte.byte) (timeout_ms : Z)
      (w : world) :
  bytes <= INT_MAX ->
  exists calls,
    calls_since w (snd (uart_read_bytes fuel bus bytes dest timeout_ms w)) = calls
    /\ read_protocol (array_get (fd w) bus) bytes calls
    /\ 0 <= bytes_delivered calls <= Z.max 0 bytes
    /\ bytes_delivered calls = Z.of_nat (List.length (received calls))
    /\ snd (fst (uart_read_bytes fuel bus bytes dest timeout_ms w))
       = received calls ++ skipn (List.length (received calls)) dest
    /\ (forall r, fst (fst (uart_read_bytes fuel bus bytes dest timeout_ms w)) = Some r ->
                  r = -1 \/ r = bytes_delivered calls).
Proof.
  intros Bm.
  assert (Refused : forall v : world,
             trace v = trace w ->
             exists calls,
               calls_since w v = calls
               /\ read_protocol (array_get (fd w) bus) bytes calls
               /\ 0 <= bytes_delivered calls <= Z.max 0 bytes
               /\ bytes_delivered calls = Z.of_nat (List.length (received calls))
               /\ dest = received calls ++ skipn (List.length (received calls)) dest
               /\ (forall r, Some (-1) = Some r -> r = -1 \/ r = bytes_delivered calls)).
  { intros v Tv. exists [].
    split; [apply calls_since_app; rewrite app_nil_r; exact Tv|].
    cbn. split5; [exact I|lia|reflexivity|reflexivity|].
    intros r H. injection H as <-. left. reflexivity. }
  unfold uart_read_bytes.
  destruct (bus_out_of_range bus); [apply Refused; reflexivity|].
  destruct (bytes <? 1) eqn:B1; [apply Refused; reflexivity|].
  apply Z.ltb_ge in B1.
  unfold bind, get_initialized.
  destruct (array_get (initialized w) bus =? 0); [apply Refused; reflexivity|].
  destruct (read_loop fuel bus (read_entry bytes dest timeout_ms) w)
    as [[res mem] w'] eqn:E.
  apply read_loop_log in E; cbn [read_entry bytes_read bytes_left buf Z.to_nat];
    try lia.
  destruct E as (calls & Tr & Pr & Bd & Bl & Bf & Rs).
  cbn [read_entry bytes_read bytes_left buf] in *.
  exists calls. cbn [fst snd].
  split; [apply calls_since_app; exact Tr|].
  split5; [exact Pr|lia|exact Bl|rewrite Bf; reflexivity|].
  intros r H. destruct (Rs r H) as [-> | ->]; [left; reflexivity|right; lia].
Qed.

(** X9.  Whatever the arguments and the devices, what [uart_read_bytes]
    returns is -1 or a count between 0 and [bytes], and a count is exactly
    the number of bytes the [read] calls of this call have delivered. *)
Theorem uart_read_bytes_result_range
        (fuel : nat) (bus bytes : Z) (dest : list Byte.byte) (timeout_ms : Z)
        (w : world) (r : Z) :
  bytes <= INT_MAX ->
  fst (fst (uart_read_bytes fuel bus bytes dest timeout_ms w)) = Some r ->
  r = -1
  \/ (0 <= r <= bytes
      /\ r = bytes_delivered
               (calls_since w (snd (uart_read_bytes fuel bus bytes dest timeout_ms w)))).
Proof.
  intros Bm H.
  destruct (uart_read_bytes_log fuel bus bytes dest timeout_ms w Bm)
    as (calls & -> & _ & Bd & _ & _ & Rs).
  destruct (Rs r H) as [-> | ->]; [left; reflexivity|right].
  destruct (Z_lt_dec bytes 1) as [Lt|Ge]; [|lia].
  exfalso. revert H. unfold uart_read_bytes.
  destruct (bus_out_of_range bus); [cbn; intros H; injection H; lia|].
  assert (B1 : (bytes <? 1) = true) by (apply Z.ltb_lt; exact Lt).
  rewrite B1. cbn. intros H. injection H. lia.
Qed.

Lemma uart_read_bytes_result_range_witness :
  4 <= INT_MAX
  /\ (4 = -1
      \/ 0 <= 4 <= 4
         /\ 4 = bytes_delivered
                  (calls_since (bus1_world two_then_three)
                     (snd (uart_read_bytes 5 1 4 four_blanks 1000
                             (bus1_world two_then_three))))).
Proof.
  assert (B : 4 <= INT_MAX) by (unfold INT_MAX; lia).
  split; [exact B|].
  exact (uart_read_bytes_result_range 5 1 4 four_blanks 1000
           (bus1_world two_then_three) 4 B eq_refl).
Defined.

(** X10.  After [uart_read_bytes] the buffer starts with the bytes the
    [read] calls of this call have delivered, in the order of delivery, and
    goes on with what it held before; a count returned is the number of
    these bytes.  At most [bytes] bytes are delivered, so a buffer of at
    least [bytes] bytes keeps its length. *)
Theorem uart_read_bytes_buffer
        (fuel : nat) (bus bytes : Z) (dest : list Byte.byte) (timeout_ms : Z)
        (w : world) :
  bytes <= INT_MAX ->
  let run := uart_read_bytes fuel bus bytes dest timeout_ms w in
  let got := received (calls_since w (snd run)) in
  snd (fst run) = got ++ skipn (List.length got) dest
  /\ Z.of_nat (List.length got) <= Z.max 0 bytes
  /\ (forall r, fst (fst run) = Some r -> 0 <= r -> r = Z.of_nat (List.length got))
  /\ (bytes <= Z.of_nat (List.length dest) ->
      List.length (snd (fst run)) = List.length dest).
Proof.
  intros Bm. cbn zeta.
  destruct (uart_read_bytes_log fuel bus bytes dest timeout_ms w Bm)
    as (calls & -> & _ & Bd & Bl & Bf & Rs).
  split; [exact Bf|]. split; [lia|]. split.
  - intros r H P. destruct (Rs r H) as [-> | ->]; lia.
  - intros Ld. rewrite Bf, length_app, length_skipn. lia.
Qed.

Lemma uart_read_bytes_buffer_witness :
  4 <= INT_MAX
  /\ snd (fst (uart_read_bytes 5 1 4 four_blanks 1000 (bus1_world then_silence)))
     = received (calls_since (bus1_world then_silence)
                   (snd (uart_read_bytes 5 1 4 four_blanks 1000
                           (bus1_world then_silence))))
       ++ [Byte.x20; Byte.x20].
Proof.
  assert (B : 4 <= INT_MAX) by (unfold INT_MAX; lia).
  split; [exact B|].
  exact (proj1 (uart_read_bytes_buffer 5 1 4 four_blanks 1000
                  (bus1_world then_silence) B)).
Defined.

(** X11.  The system calls of one [uart_read_bytes] follow one pattern: a
    [select] on the descriptor stored for the bus, with that descriptor
    plus one as the number of descriptors; a [read] only right after a
    [select] that reported the descriptor readable, on the same descriptor,
    asking for exactly the bytes still missing (the request less what the
    earlier reads delivered); nothing after a [select] that failed or timed
    out, and no other system call. *)
Theorem uart_read_bytes_protocol
        (fuel : nat) (bus bytes : Z) (dest : list Byte.byte) (timeout_ms : Z)
        (w : world) :
  bytes <= INT_MAX ->
  read_protocol (array_get (fd w) bus) bytes
    (calls_since w (snd (uart_read_bytes fuel bus bytes dest timeout_ms w))).
Proof.
  intros Bm.
  destruct (uart_read_bytes_log fuel bus bytes dest timeout_ms w Bm)
    as (calls & -> & Pr & _).
  exact Pr.
Qed.

Lemma uart_read_bytes_protocol_witness :
  4 <= INT_MAX
  /\ read_protocol 3 4
       (calls_since (bus1_world two_then_three)
          (snd (uart_read_bytes 5 1 4 four_blanks 1000 (bus1_world two_then_three)))).
Proof.
  assert (B : 4 <= INT_MAX) by (unfold INT_MAX; lia).
  split; [exact B|].
  exact (uart_read_bytes_protocol 5 1 4 four_blanks 1000
           (bus1_world two_then_three) B).
Defined.

(** ** When the loop ends and when it does not *)

Lemma read_loop_returns (fuel : nat) (bus : Z) :
  forall (st : locals) (w : world),
    reads_deliver (env w) ->
    0 <= bytes_read st -> 0 <= bytes_left st ->
    bytes_read st + bytes_left st <= INT_MAX ->
    (Z.to_nat (bytes_left st) < fuel)%nat ->
    fst (fst (read_loop fuel bus st w)) <> None.
Proof.
  induction fuel as [|fuel IH]; intros st w D A B S F; [lia|].
  cbn [read_loop]. unfold bind at 1. rewrite loop_condition_eq.
  destruct (bytes_left st >? 0) eqn:G; [|cbn; discriminate].
  destruct (negb (state_eqb (fst (get_state w)) EXITING)); [|cbn; discriminate].
  cbn [andb]. unfold bind.
  set (d := array_get (fd w) bus).
  assert (W : wait_readable bus st w = sys_select (wrap_int (d + 1)) d (timeout st) w)
    by reflexivity.
  destruct (sys_select_spec (wrap_int (d + 1)) d (timeout st) w)
    as (r & tv' & t & err & Es & _ & _ & Rr).
  rewrite Es in W.
  destruct Rr as [->|[[->| ->] ->]].
  - rewrite loop_body_wait_failed by (rewrite W; reflexivity).
    rewrite W. cbn zeta. cbn [snd].
    destruct (errno _ =? EINTR); cbn; discriminate.
  - rewrite loop_body_timeout by (rewrite W; reflexivity). cbn. discriminate.
  - rewrite (loop_body_after_wait bus st w _ tv' W). cbv zeta.
    change (array_get (fd (log (Sys_select (wrap_int (d + 1)) d (timeout st) 1 tv'
                                  t) (open_fds w) (errno w) w)) bus) with d.
    match goal with
    | |- context [sys_read d (bytes_left st) ?v] =>
        set (w1 := v) in *;
        destruct (sys_read_cases d (bytes_left st) w1) as [[Neg Er]|[Pos Er]];
          rewrite Er; clear Er; cbn [fst snd]
    end.
    + assert (Hn : (result (next_reply w1) <? 0) = true)
        by (apply Z.ltb_lt; exact Neg).
      rewrite Hn. cbn. discriminate.
    + set (data := firstn (Z.to_nat (bytes_left st)) (incoming (next_reply w1))).
      set (n := Z.of_nat (List.length data)).
      assert (N1 : 1 <= n <= bytes_left st).
      { destruct (D (List.length (trace w1))) as [Dn|Dn].
        - unfold next_reply in Pos. change (env w1) with (env w) in Pos. lia.
        - subst n data. rewrite length_firstn.
          unfold next_reply. change (env w1) with (env w).
          destruct (incoming (answer (env w) (List.length (trace w1))));
            [contradiction Dn; reflexivity|]. cbn [List.length]. lia. }
      assert (Hn : (n <? 0) = false) by (apply Z.ltb_ge; lia).
      rewrite Hn.
      assert (Nb : 0 <= n <= bytes_left st) by lia.
      destruct (counters_after_read n (bytes_read st) (bytes_left st) (timeout st)
                  tv' (buf st) (store (buf st) (bytes_read st) data) Nb A S)
        as [Cr Cl].
      cbn zeta in Cr, Cl.
      apply IH; [exact D|rewrite Cr; lia|rewrite Cl; lia|rewrite Cr, Cl; lia
                |rewrite Cl; lia].
Qed.

(** X12.  On devices where every [read] that succeeds finds at least one
    byte, [uart_read_bytes] returns after at most [bytes] passes through
    its loop: more passes than that are never needed. *)
Theorem uart_read_bytes_returns
        (fuel : nat) (bus bytes : Z) (dest : list Byte.byte) (timeout_ms : Z)
        (w : world) :
  bytes <= INT_MAX -> reads_deliver (env w) ->
  (Z.to_nat bytes < fuel)%nat ->
  exists r, fst (fst (uart_read_bytes fuel bus bytes dest timeout_ms w)) = Some r.
Proof.
  intros Bm D F.
  assert (N : fst (fst (uart_read_bytes fuel bus bytes dest timeout_ms w)) <> None).
  { unfold uart_read_bytes.
    destruct (bus_out_of_range bus); [cbn; discriminate|].
    destruct (bytes <? 1) eqn:B1; [cbn; discriminate|].
    apply Z.ltb_ge in B1. unfold bind, get_initialized.
    destruct (array_get (initialized w) bus =? 0); [cbn; discriminate|].
    apply read_loop_returns; cbn [read_entry bytes_read bytes_left]; try lia.
    exact D. }
  destruct (fst (fst (uart_read_bytes fuel bus bytes dest timeout_ms w))) as [r|];
    [exists r; reflexivity|contradiction N; reflexivity].
Qed.

Lemma uart_read_bytes_returns_witness :
  reads_deliver steady
  /\ exists r,
       fst (fst (uart_read_bytes 5 1 4 four_blanks 1000 (bus1_world steady)))
       = Some r.
Proof.
  assert (B : 4 <= INT_MAX) by (unfold INT_MAX; lia).
  assert (D : reads_deliver (env (bus1_world steady)))
    by (intros n; right; discriminate).
  assert (F : (Z.to_nat 4 < 5)%nat) by (cbn; lia).
  split; [exact D|].
  exact (uart_read_bytes_returns 5 1 4 four_blanks 1000 (bus1_world steady) B D F).
Defined.

Lemma timeval_of_ms_valid (timeout_ms : Z) :
  0 <= timeout_ms ->
  (tv_sec (timeval_of_ms timeout_ms) <? 0)
  || (tv_usec (timeval_of_ms timeout_ms) <? 0) = false.
Proof.
  intros T. unfold timeval_of_ms. cbn [tv_sec tv_usec].
  rewrite Z.quot_div_nonneg, Z.rem_mod_nonneg by lia.
  pose proof (Z.mod_pos_bound timeout_ms 1000 ltac:(lia)).
  pose proof (Z.div_pos timeout_ms 1000 T ltac:(lia)).
  apply orb_false_iff. split; apply Z.ltb_ge; lia.
Qed.

Lemma timeval_of_ms_invalid (timeout_ms : Z) :
  timeout_ms < 0 ->
  (tv_sec (timeval_of_ms timeout_ms) <? 0)
  || (tv_usec (timeval_of_ms timeout_ms) <? 0) = true.
Proof.
  intros T. pose proof (tv_to_usec_of_ms timeout_ms) as E.
  unfold tv_to_usec in E. apply orb_true_iff.
  destruct (Z_lt_dec (tv_sec (timeval_of_ms timeout_ms)) 0) as [N|N].
  - left. apply Z.ltb_lt. exact N.
  - right. apply Z.ltb_lt. lia.
Qed.

Lemma read_loop_spins (fuel : nat) (bus : Z) :
  forall (st : locals) (w : world),
    ready_but_empty (env w) ->
    0 < bytes_left st ->
    (tv_sec (timeout st) <? 0) || (tv_usec (timeout st) <? 0) = false ->
    read_loop fuel bus st w
    = (None, buf st, snd (read_loop fuel bus st w))
    /\ env (snd (read_loop fuel bus st w)) = env w.
Proof.
  induction fuel as [|fuel IH]; intros st w Q B V; [split; reflexivity|].
  destruct (Q (List.length (trace w))) as (Fl & _ & (delay & Wt & Dl) & _).
  assert (C : fst (loop_condition st w) = true).
  { rewrite loop_condition_eq. cbn [fst]. unfold get_state. cbn [fst].
    rewrite Fl. cbn. apply andb_true_iff. split; [|reflexivity].
    apply Z.gtb_lt. lia. }
  rewrite (read_loop_step fuel bus st w C).
  set (d := array_get (fd w) bus).
  pose proof (Z.ltb_ge (tv_sec (timeout st)) 0) as V1.
  pose proof (Z.ltb_ge (tv_usec (timeout st)) 0) as V2.
  apply orb_false_iff in V. destruct V as [Vs Vu].
  assert (Bu : 0 <= tv_to_usec (timeout st))
    by (unfold tv_to_usec; apply V1 in Vs; apply V2 in Vu; lia).
  assert (W : wait_readable bus st w
              = (1, tv_of_usec (tv_to_usec (timeout st)),
                 log (Sys_select (wrap_int (d + 1)) d (timeout st) 1
                        (tv_of_usec (tv_to_usec (timeout st))) 0)
                     (open_fds w) (errno w) w)).
  { unfold wait_readable, bind, get_fd, sys_select. fold d.
    rewrite Vs, Vu. cbn [orb]. unfold next_reply. rewrite Wt.
    replace (Z.max 0 delay) with 0 by lia.
    assert (L : (0 <=? tv_to_usec (timeout st)) = true) by (apply Z.leb_le; exact Bu).
    rewrite L, Z.sub_0_r. reflexivity. }
  rewrite (loop_body_after_wait bus st w _ _ W). cbv zeta.
  change (array_get (fd (log (Sys_select (wrap_int (d + 1)) d (timeout st) 1
                                (tv_of_usec (tv_to_usec (timeout st))) 0)
                             (open_fds w) (errno w) w)) bus) with d.
  match goal with
  | |- context [sys_read d (bytes_left st) ?v] =>
      set (w1 := v) in *;
      destruct (sys_read_cases d (bytes_left st) w1) as [[Neg Er]|[Pos Er]];
        rewrite Er; clear Er; cbn [fst snd]
  end.
  { destruct (Q (List.length (trace w1))) as (_ & Rn & _).
    unfold next_reply in Neg. change (env w1) with (env w) in Neg. lia. }
  destruct (Q (List.length (trace w1))) as (_ & _ & _ & In0).
  assert (Dn : firstn (Z.to_nat (bytes_left st)) (incoming (next_reply w1)) = []).
  { unfold next_reply. change (env w1) with (env w). rewrite In0.
    apply firstn_nil. }
  rewrite Dn. cbn [List.length Z.of_nat Z.ltb Z.gtb Z.compare].
  match goal with
  | |- context [read_loop fuel bus ?s ?v] =>
      destruct (IH s v) as [E1 E2];
        [exact Q|exact B|cbn [timeout]; apply tv_of_usec_valid; exact Bu|]
  end.
  split; [exact E1|exact E2].
Qed.

(** X13.  A [read] that returns 0 does not end the loop.  On a device that
    is readable as soon as it is waited for and then delivers no byte, with
    the flow state never EXITING, a valid [uart_read_bytes] with a timeout
    that is not negative never returns: however many passes it is given,
    it is still in its loop, with the buffer as it was. *)
Theorem uart_read_bytes_spins
        (fuel : nat) (bus bytes : Z) (dest : list Byte.byte) (timeout_ms : Z)
        (w : world) :
  in_range bus -> 1 <= bytes -> is_initialized w bus -> 0 <= timeout_ms ->
  ready_but_empty (env w) ->
  fst (uart_read_bytes fuel bus bytes dest timeout_ms w) = (None, dest).
Proof.
  intros R B I T Q.
  rewrite uart_read_bytes_valid by assumption.
  destruct (read_loop_spins fuel bus (read_entry bytes dest timeout_ms) w Q)
    as [E _]; cbn [read_entry bytes_left timeout]; [lia| |rewrite E; reflexivity].
  apply timeval_of_ms_valid. exact T.
Qed.

Lemma uart_read_bytes_spins_witness :
  ready_but_empty calm
  /\ fst (uart_read_bytes 1000 1 4 four_blanks 1000 (bus1_world calm))
     = (None, four_blanks).
Proof.
  assert (R : in_range 1) by (unfold in_range, MIN_BUS, MAX_BUS; lia).
  assert (B : 1 <= 4) by lia.
  assert (I : is_initialized (bus1_world calm) 1) by (vm_compute; discriminate).
  assert (T : 0 <= 1000) by lia.
  assert (Q : ready_but_empty (env (bus1_world calm))).
  { intros n. cbn. destruct n; cbn;
      (split; [reflexivity|split; [lia|split; [exists 0; split; [reflexivity|lia]
                                             |reflexivity]]]). }
  split; [exact Q|].
  exact (uart_read_bytes_spins 1000 1 4 four_blanks 1000 (bus1_world calm) R B I T Q).
Defined.

(** X15.  A negative [timeout_ms] does not mean "wait for ever": the
    timeout structure has a negative field, the first [select] refuses it
    (EINVAL) without blocking, and a valid call that is not told to exit
    returns -1 after that one system call, with the buffer as it was. *)
Theorem negative_timeout_fails
        (fuel : nat) (bus bytes : Z) (dest : list Byte.byte) (timeout_ms : Z)
        (w : world) :
  in_range bus -> 1 <= bytes -> is_initialized w bus ->
  fst (get_state w) = RUNNING ->
  timeout_ms < 0 ->
  let run := uart_read_bytes (S fuel) bus bytes dest timeout_ms w in
  let d := array_get (fd w) bus in
  fst run = (Some (-1), dest)
  /\ calls_since w (snd run)
     = [Sys_select (wrap_int (d + 1)) d (timeval_of_ms timeout_ms) (-1)
                   (timeval_of_ms timeout_ms) 0]
  /\ errno (snd run) = EINVAL.
Proof.
  intros R B I Rn T. cbn zeta.
  rewrite uart_read_bytes_valid by assumption.
  assert (C : fst (loop_condition (read_entry bytes dest timeout_ms) w) = true).
  { rewrite loop_condition_eq. cbn [fst read_entry bytes_left]. rewrite Rn.
    apply andb_true_iff. split; [apply Z.gtb_lt; lia|reflexivity]. }
  rewrite (read_loop_step fuel bus _ w C).
  assert (W : wait_readable bus (read_entry bytes dest timeout_ms) w
              = (-1, timeval_of_ms timeout_ms,
                 log (Sys_select (wrap_int (array_get (fd w) bus + 1))
                        (array_get (fd w) bus) (timeval_of_ms timeout_ms) (-1)
                        (timeval_of_ms timeout_ms) 0)
                     (open_fds w) EINVAL w)).
  { unfold wait_readable, bind, get_fd, sys_select.
    cbn [read_entry timeout]. rewrite (timeval_of_ms_invalid timeout_ms T).
    reflexivity. }
  rewrite loop_body_wait_failed by (rewrite W; reflexivity).
  rewrite W. cbn.
  split; [reflexivity|]. split; [|reflexivity].
  apply calls_since_app. reflexivity.
Qed.

Lemma negative_timeout_fails_witness :
  -500 < 0
  /\ fst (uart_read_bytes 1 1 4 four_blanks (-500) (bus1_world two_then_three))
     = (Some (-1), four_blanks).
Proof.
  assert (R : in_range 1) by (unfold in_range, MIN_BUS, MAX_BUS; lia).
  assert (B : 1 <= 4) by lia.
  assert (I : is_initialized (bus1_world two_then_three) 1)
    by (vm_compute; discriminate).
  assert (T : -500 < 0) by lia.
  split; [exact T|].
  exact (proj1 (negative_timeout_fails 0 1 4 four_blanks (-500)
                  (bus1_world two_then_three) R B I eq_refl T)).
Defined.

(** ** Opening and closing *)

Lemma list_set_set (a : list Z) (n : nat) (u v : Z) :
  list_set (list_set a n u) n v = list_set a n v.
Proof.
  revert n. induction a as [|h t IH]; intros [|n]; cbn; try reflexivity.
  rewrite IH. reflexivity.
Qed.

Lemma list_set_same (a : list Z) (n : nat) :
  list_set a n (nth n a 0) = a.
Proof.
  revert n. induction a as [|h t IH]; intros [|n]; cbn; try reflexivity.
  rewrite IH. reflexivity.
Qed.

(** X18.  Opening and closing gives back what was there: on a bus that is
    not initialized, an [initialize_uart] that returns 0 followed by
    [close_uart] makes [close] the one system call of the second step, on
    the descriptor the first step opened, and leaves every [initialized]
    flag as it was before the two calls; if that descriptor was not among
    the open ones before, the open descriptors are as before too. *)
Theorem initialize_then_close (bus baudrate : Z) (w : world) :
  in_range bus -> six_slots w -> ~ is_initialized w bus ->
  fst (initialize_uart bus baudrate w) = 0 ->
  let w1 := snd (initialize_uart bus baudrate w) in
  let w2 := snd (close_uart bus w1) in
  calls_since w1 w2 = [Sys_close (array_get (fd w1) bus)]
  /\ initialized w2 = initialized w
  /\ fd w2 = fd w1
  /\ (~ In (array_get (fd w1) bus) (open_fds w) -> open_fds w2 = open_fds w).
Proof.
  intros R S N Z0. cbn zeta.
  destruct (speed_of_baudrate baudrate) as [speed|] eqn:Sp.
  2:{ unfold initialize_uart in Z0.
      rewrite (bus_out_of_range_false bus R), Sp in Z0. discriminate Z0. }
  destruct (initialize_uart_success_world bus baudrate speed w R S Sp Z0)
    as (r3 & r4 & D & _ & E).
  cbn zeta in E.
  pose proof (bus_out_of_range_false bus R) as Rc.
  pose proof (not_initialized_eqb w bus N) as Nc.
  rewrite (close_uart_in_range bus w Rc), Nc in E. cbn [snd] in E.
  rewrite E. destruct S as [Li Lf].
  rewrite (close_uart_in_range bus _ Rc). cbn [snd initialized fd].
  rewrite (array_get_set_same _ bus 1 Li R). cbn [Z.eqb].
  rewrite (array_get_set_same _ bus _ Lf R).
  split; [apply calls_since_app; reflexivity|].
  split.
  { cbn [initialized]. unfold array_set. rewrite list_set_set.
    apply Z.eqb_eq in Nc. unfold array_get in Nc. rewrite <- Nc at 1.
    apply list_set_same. }
  split; [reflexivity|].
  intros Fr. cbn [open_fds remove].
  destruct (Z.eq_dec _ _) as [_|Ne]; [|contradiction Ne; reflexivity].
  apply notin_remove. exact Fr.
Qed.

Lemma initialize_then_close_witness :
  open_fds (snd (close_uart 1 (snd (initialize_uart 1 115200 (fresh_world device_ok)))))
  = []
  /\ initialized
       (snd (close_uart 1 (snd (initialize_uart 1 115200 (fresh_world device_ok)))))
     = [0; 0; 0; 0; 0; 0].
Proof.
  assert (R : in_range 1) by (unfold in_range, MIN_BUS, MAX_BUS; lia).
  assert (S : six_slots (fresh_world device_ok)) by (split; reflexivity).
  assert (N : ~ is_initialized (fresh_world device_ok) 1)
    by (intros H; apply H; reflexivity).
  destruct (initialize_then_close 1 115200 (fresh_world device_ok) R S N eq_refl)
    as (_ & Hi & _ & Ho).
  split; [apply Ho; intros []|exact Hi].
Defined.

(** ** The table of baud rates *)

Lemma speed_of_baudrate_some (b : Z) (s : speed_t) :
  speed_of_baudrate b = Some s -> In b accepted_baudrates.
Proof.
  intros E. destruct (in_dec Z.eq_dec b accepted_baudrates) as [H|H]; [exact H|].
  rewrite (speed_of_baudrate_none b H) in E. discriminate E.
Qed.

(** X8.  The [switch] of [initialize_uart] accepts exactly the eighteen
    standard rates, and no two of them are given the same symbolic speed. *)
Theorem speed_of_baudrate_table (b1 b2 : Z) :
  (speed_of_baudrate b1 <> None <-> In b1 accepted_baudrates)
  /\ (speed_of_baudrate b1 <> None ->
      speed_of_baudrate b1 = speed_of_baudrate b2 -> b1 = b2).
Proof.
  split.
  - split.
    + intros H. destruct (speed_of_baudrate b1) as [s|] eqn:E;
        [exact (speed_of_baudrate_some b1 s E)|contradiction H; reflexivity].
    + apply speed_of_baudrate_accepted.
  - intros H E. destruct (speed_of_baudrate b1) as [s|] eqn:E1;
      [|contradiction H; reflexivity].
    symmetry in E.
    pose proof (speed_of_baudrate_some b1 s E1) as I1.
    pose proof (speed_of_baudrate_some b2 s E) as I2.
    unfold accepted_baudrates in I1, I2. cbn [In] in I1, I2.
    repeat (destruct I1 as [<-|I1];
            [cbn in E1; injection E1 as <-;
             repeat (destruct I2 as [<-|I2];
                     [first [reflexivity|discriminate E]|]);
             contradiction I2|]).
    contradiction I1.
Qed.
